(** * govno_price_widget: a shallow embedding of [CryptoPriceWidget]

    The development follows [src/govno_price_widget.py]:

    - [PyFloat]   Python's [float] as IEEE binary64, its comparison and the
                  ['.Nf'] format;
    - the widget object and [_update_price_display];
    - [PyVal]     the Python objects [response.json()] can return, with the
                  operators the update loop applies to them;
    - [Http]      [requests.get], [raise_for_status] and [json], and
                  [_fetch_price_data];
    - the drag handlers, [quit], the worker loop [_update_price_loop] as a
      step function interleaved with the UI events, and the constructor;
    - [Numeral]   [float(str)] on ASCII input, to run the program on
                  concrete bodies;
    - the theorems. *)

From Stdlib Require Import ZArith List String Ascii Bool Lia.
From Stdlib Require Import DecimalString DecimalN.
From Stdlib Require Import Floats.PrimFloat Floats.FloatOps Floats.SpecFloat.
From Stdlib Require Import Floats.FloatAxioms.
Import ListNotations.

Set Warnings "-inexact-float,-register-all,-notation-for-abbreviation".
Local Open Scope Z_scope.
Local Open Scope string_scope.

(* ------------------------------------------------------------------ *)
(** ** Python floats and fixed-point formatting *)

Module PyFloat.

(** [a >= b] on Python floats: IEEE comparison, false when either is NaN. *)
Definition ge (a b : float) : bool := PrimFloat.leb b a.

(** [change >= 0]: the int [0] is compared as the float [0.0]. *)
Definition ge_zero (a : float) : bool := ge a PrimFloat.zero.

Definition is_finite (x : float) : bool :=
  match Prim2SF x with
  | S754_zero _ | S754_finite _ _ _ => true
  | S754_infinity _ | S754_nan => false
  end.

Definition digit_char (d : Z) : ascii := ascii_of_nat (48 + Z.to_nat d).

(** The [k] low decimal digits of [n], most significant first, zero padded,
    pushed in front of [acc]. *)
Fixpoint fixed_digits (k : nat) (n : Z) (acc : string) : string :=
  match k with
  | O => acc
  | S k' => fixed_digits k' (n / 10) (String (digit_char (n mod 10)) acc)
  end.

(** Decimal numeral of a non-negative integer (["0"] for zero). *)
Definition int_digits (n : Z) : string :=
  NilZero.string_of_uint (N.to_uint (Z.to_N n)).

(** [num / den] rounded to the nearest integer, ties to even. *)
Definition round_half_even (num den : Z) : Z :=
  let q := num / den in
  let r := num mod den in
  match 2 * r ?= den with
  | Lt => q
  | Gt => q + 1
  | Eq => if Z.even q then q else q + 1
  end.

(** [m * 2^e * 10^prec] rounded to an integer: the digits that ['.{prec}f']
    prints for the magnitude [m * 2^e]. *)
Definition scaled (prec : nat) (m : positive) (e : Z) : Z :=
  if (0 <=? e)%Z
  then Zpos m * 2 ^ e * 10 ^ Z.of_nat prec
  else round_half_even (Zpos m * 10 ^ Z.of_nat prec) (2 ^ (- e)).

Definition sign_str (s : bool) : string := if s then "-" else "".

(** The fractional part, with its point; nothing at precision 0. *)
Definition frac_str (prec : nat) (n : Z) : string :=
  match prec with
  | O => ""
  | S _ => String "." (fixed_digits prec (n mod 10 ^ Z.of_nat prec) "")
  end.

Definition fixed_str (prec : nat) (n : Z) : string :=
  int_digits (n / 10 ^ Z.of_nat prec) ++ frac_str prec n.

(** [format(x, '.{prec}f')]: NaN prints as [nan] whatever its sign bit,
    infinities as [inf] / [-inf], a finite value as its correctly rounded
    decimal expansion with [prec] digits after the point. *)
Definition format_f (prec : nat) (x : float) : string :=
  match Prim2SF x with
  | S754_nan => "nan"
  | S754_infinity s => sign_str s ++ "inf"
  | S754_zero s => sign_str s ++ fixed_str prec 0
  | S754_finite s m e => sign_str s ++ fixed_str prec (scaled prec m e)
  end.

Definition is_digit (c : ascii) : bool :=
  let n := nat_of_ascii c in (Nat.leb 48 n && Nat.leb n 57)%bool.

Fixpoint all_digits (s : string) : bool :=
  match s with
  | EmptyString => true
  | String c s' => (is_digit c && all_digits s')%bool
  end.

End PyFloat.

(* ------------------------------------------------------------------ *)
(** ** The widget object *)

(** The Python thread a method body runs on: the main thread, which runs
    Tk's event loop, or the thread started by [_start_price_updates]. *)
Inductive context := UIThread | WorkerThread.

(** The options of a [tk.Label] the program changes after creation. *)
Record label := mkLabel { text : string; fg : string }.

(** [WidgetConfig]: the two fields the modelled methods read. *)
Record WidgetConfig := mkConfig {
  UPDATE_INTERVAL : Z;
  LOGO_SIZE : Z * Z
}.

Definition default_config : WidgetConfig :=
  {| UPDATE_INTERVAL := 30; LOGO_SIZE := (64, 64) |}.

(** The attributes of a constructed [CryptoPriceWidget].  [drag_data = None]
    stands for "the attribute does not exist" ([hasattr] is false);
    [win_x], [win_y] are what [winfo_x()], [winfo_y()] return; [tk_quit] is
    the interpreter's quit flag set by [tk.Tk.quit]; [applied] is the history
    of the calls of [_update_price_display], newest first: the Python thread
    that made the call, with the price and the change it was given (on which
    thread Tk then runs the two [configure] commands is not modelled). *)
Record widget := mkWidget {
  config : WidgetConfig;
  previous_price : option float;
  running : bool;
  price_label : label;
  percent_label : label;
  drag_data : option (Z * Z);
  win_x : Z;
  win_y : Z;
  tk_quit : bool;
  applied : list (context * float * float)
}.

Definition UP_COLOR : string := "#00ff00".
Definition DOWN_COLOR : string := "#ff0000".
Definition UP_GLYPH : string := "↑".
Definition DOWN_GLYPH : string := "↓".

Definition price_color (prev : option float) (price : float) : string :=
  match prev with
  | None => UP_COLOR
  | Some q => if PyFloat.ge price q then UP_COLOR else DOWN_COLOR
  end.

Definition percent_color (change : float) : string :=
  if PyFloat.ge_zero change then UP_COLOR else DOWN_COLOR.

Definition price_text (price : float) : string :=
  "$" ++ PyFloat.format_f 6 price.

Definition percent_text (change : float) : string :=
  (if PyFloat.ge_zero change then UP_GLYPH else DOWN_GLYPH)
    ++ PyFloat.format_f 2 (PrimFloat.abs change) ++ "%".

(** [_update_price_display(price, change)], run on thread [ctx]. *)
Definition update_price_display (ctx : context) (w : widget)
    (price change : float) : widget :=
  let pl := {| text := price_text price;
               fg := price_color (previous_price w) price |} in
  let cl := {| text := percent_text change;
               fg := percent_color change |} in
  {| config := config w;
     previous_price := Some price;
     running := running w;
     price_label := pl;
     percent_label := cl;
     drag_data := drag_data w;
     win_x := win_x w;
     win_y := win_y w;
     tk_quit := tk_quit w;
     applied := (ctx, price, change) :: applied w |}.

(* ------------------------------------------------------------------ *)
(** ** Exceptions *)

(** The exception classes that can arise in the modelled code.  The first
    five are subclasses of [requests.exceptions.RequestException]. *)
Inductive exn :=
  | ConnectionError
  | Timeout
  | TooManyRedirects
  | HTTPError (status : Z)
  | JSONDecodeError
  | KeyError (key : string)
  | TypeError
  | ValueError
  | OverflowError
  | RecursionError
  | AttributeError (name : string).

Definition is_RequestException (e : exn) : bool :=
  match e with
  | ConnectionError | Timeout | TooManyRedirects
  | HTTPError _ | JSONDecodeError => true
  | _ => false
  end.

Inductive result (A : Type) :=
  | Ok (a : A)
  | Raise (e : exn).
Arguments Ok {A} a.
Arguments Raise {A} e.

Definition bind {A B : Type} (r : result A) (k : A -> result B) : result B :=
  match r with
  | Ok a => k a
  | Raise e => Raise e
  end.

Notation "x <- r ;; k" := (bind r (fun x => k))
  (at level 61, r at next level, right associativity).

(* ------------------------------------------------------------------ *)
(** ** Python objects decoded from JSON *)

Module PyVal.

(** What [json.loads] builds: [None], [bool], [int], [float], [str],
    [list] and [dict] with [str] keys.  A [dict] is kept as an association
    list read at its first matching key. *)
Inductive pyval :=
  | VNone
  | VBool (b : bool)
  | VInt (z : Z)
  | VFloat (f : float)
  | VStr (s : string)
  | VList (l : list pyval)
  | VDict (d : list (string * pyval)).

Fixpoint dict_get (d : list (string * pyval)) (k : string) : option pyval :=
  match d with
  | [] => None
  | (k', v) :: d' => if String.eqb k' k then Some v else dict_get d' k
  end.

(** Truth value of an object, as [if data] and [and] test it. *)
Definition truthy (v : pyval) : bool :=
  match v with
  | VNone => false
  | VBool b => b
  | VInt z => negb (z =? 0)%Z
  | VFloat f => negb (PrimFloat.eqb f PrimFloat.zero)
  | VStr s => negb (String.eqb s "")
  | VList l => match l with [] => false | _ => true end
  | VDict d => match d with [] => false | _ => true end
  end.

Fixpoint is_prefix (p s : string) : bool :=
  match p, s with
  | EmptyString, _ => true
  | String a p', String b s' => (Ascii.eqb a b && is_prefix p' s')%bool
  | String _ _, EmptyString => false
  end.

Fixpoint is_substring (p s : string) : bool :=
  (is_prefix p s ||
   match s with
   | EmptyString => false
   | String _ s' => is_substring p s'
   end)%bool.

Definition is_str (k : string) (v : pyval) : bool :=
  match v with
  | VStr s => String.eqb s k
  | _ => false
  end.

(** [k in v] for a [str] [k]: key membership in a dict, element membership
    in a list, substring test in a str; other objects are not iterable. *)
Definition contains (k : string) (v : pyval) : result bool :=
  match v with
  | VDict d => Ok (match dict_get d k with Some _ => true | None => false end)
  | VList l => Ok (existsb (is_str k) l)
  | VStr s => Ok (is_substring k s)
  | _ => Raise TypeError
  end.

(** [v[k]] for a [str] [k]. *)
Definition subscript (v : pyval) (k : string) : result pyval :=
  match v with
  | VDict d =>
      match dict_get d k with
      | Some x => Ok x
      | None => Raise (KeyError k)
      end
  | _ => Raise TypeError
  end.

(** [float(n)] for an [int]: the nearest binary64, ties to even;
    [OverflowError] when that is out of range. *)
Definition float_of_int (z : Z) : result float :=
  match binary_normalize prec emax z 0 false with
  | S754_infinity _ => Raise OverflowError
  | sf => Ok (SF2Prim sf)
  end.

Section Float.

(** [float(s)] for a [str]: Python's numeral parser, [None] where it
    raises [ValueError]. *)
Variable float_of_str : string -> option float.

(** The builtin [float(v)]. *)
Definition py_float (v : pyval) : result float :=
  match v with
  | VFloat f => Ok f
  | VInt z => float_of_int z
  | VBool b => Ok (if b then PrimFloat.one else PrimFloat.zero)
  | VStr s =>
      match float_of_str s with
      | Some f => Ok f
      | None => Raise ValueError
      end
  | VNone | VList _ | VDict _ => Raise TypeError
  end.

End Float.

End PyVal.
Import PyVal.

(* ------------------------------------------------------------------ *)
(** ** The HTTP exchange *)

Module Http.

Inductive transport_failure :=
  | DnsFailure
  | ConnectionRefused
  | ConnectionReset
  | ConnectTimeout
  | ReadTimeout
  | RedirectLoop.

(** Why [json.loads] gives up on a body that is a JSON document: an integer
    literal longer than the interpreter's digit limit ([ValueError]), or
    nesting deeper than its recursion limit ([RecursionError]). *)
Inductive decoder_failure :=
  | IntegerTooLong
  | NestingTooDeep.

(** What one [requests.get] meets: no response at all, or the final
    response (redirects already followed) with its status code and what
    decoding its body does.  [Responded status (Some v)]: [json.loads]
    returns the object [v]; [Responded status None]: the body is not a JSON
    document; [Undecodable status f]: the decoder gives up on the body. *)
Inductive outcome :=
  | Failed (t : transport_failure)
  | Responded (status : Z) (body : option pyval)
  | Undecodable (status : Z) (f : decoder_failure).

(** What [json.loads] does on the body of a response. *)
Inductive decoding :=
  | Returns (v : pyval)
  | NotJson
  | GivesUp (f : decoder_failure).

(** The [Response] object, as far as the program looks at it. *)
Record response := mkResponse {
  status_code : Z;
  body_decoding : decoding
}.

Definition raised_by (t : transport_failure) : exn :=
  match t with
  | DnsFailure | ConnectionRefused | ConnectionReset => ConnectionError
  | ConnectTimeout | ReadTimeout => Timeout
  | RedirectLoop => TooManyRedirects
  end.

Definition get (o : outcome) : result response :=
  match o with
  | Failed t => Raise (raised_by t)
  | Responded status (Some v) =>
      Ok {| status_code := status; body_decoding := Returns v |}
  | Responded status None =>
      Ok {| status_code := status; body_decoding := NotJson |}
  | Undecodable status f =>
      Ok {| status_code := status; body_decoding := GivesUp f |}
  end.

(** [Response.raise_for_status]: [HTTPError] for 4xx and 5xx. *)
Definition raise_for_status (status : Z) : result unit :=
  if ((400 <=? status) && (status <? 600))%Z
  then Raise (HTTPError status)
  else Ok tt.

Definition raised_by_decoder (f : decoder_failure) : exn :=
  match f with
  | IntegerTooLong => ValueError
  | NestingTooDeep => RecursionError
  end.

(** [Response.json]: the [json.JSONDecodeError] of a body that is not JSON
    is re-raised as [requests.exceptions.JSONDecodeError]; what else the
    decoder raises passes through as it is. *)
Definition json (r : response) : result pyval :=
  match body_decoding r with
  | Returns v => Ok v
  | NotJson => Raise JSONDecodeError
  | GivesUp f => Raise (raised_by_decoder f)
  end.

(** A 2xx status. *)
Definition is_success (status : Z) : bool :=
  ((200 <=? status) && (status <? 300))%Z.

End Http.

(** [_fetch_price_data]: [None] is [VNone]. *)
Definition fetch_price_data (o : Http.outcome) : result pyval :=
  let attempt :=
    response <- Http.get o ;;
    _ <- Http.raise_for_status (Http.status_code response) ;;
    Http.json response in
  match attempt with
  | Ok v => Ok v
  | Raise e => if is_RequestException e then Ok VNone else Raise e
  end.

(* ------------------------------------------------------------------ *)
(** ** Methods of the widget *)

Definition set_drag_data (w : widget) (d : option (Z * Z)) : widget :=
  {| config := config w;
     previous_price := previous_price w;
     running := running w;
     price_label := price_label w;
     percent_label := percent_label w;
     drag_data := d;
     win_x := win_x w;
     win_y := win_y w;
     tk_quit := tk_quit w;
     applied := applied w |}.

(** [self.geometry(f'+{x}+{y}')]: the window's origin moves to [(x, y)]. *)
Definition geometry (w : widget) (x y : Z) : widget :=
  {| config := config w;
     previous_price := previous_price w;
     running := running w;
     price_label := price_label w;
     percent_label := percent_label w;
     drag_data := drag_data w;
     win_x := x;
     win_y := y;
     tk_quit := tk_quit w;
     applied := applied w |}.

(** [_start_drag(event)], with [event.x_root], [event.y_root]. *)
Definition start_drag (w : widget) (x_root y_root : Z) : widget :=
  set_drag_data w (Some (x_root - win_x w, y_root - win_y w)).

(** [_on_drag(event)]. *)
Definition on_drag (w : widget) (x_root y_root : Z) : widget :=
  match drag_data w with
  | Some (dx, dy) => geometry w (x_root - dx) (y_root - dy)
  | None => w
  end.

(** [_stop_drag(event)]. *)
Definition stop_drag (w : widget) : widget :=
  match drag_data w with
  | Some _ => set_drag_data w None
  | None => w
  end.

(** [quit()]: clears [running], then [tk.Tk.quit] raises the quit flag. *)
Definition quit (w : widget) : widget :=
  {| config := config w;
     previous_price := previous_price w;
     running := false;
     price_label := price_label w;
     percent_label := percent_label w;
     drag_data := drag_data w;
     win_x := win_x w;
     win_y := win_y w;
     tk_quit := true;
     applied := applied w |}.

(** The events [_bind_events] binds on the labels, with the pointer's root
    coordinates where the handler reads them. *)
Inductive ui_event :=
  | Button1 (x_root y_root : Z)
  | B1Motion (x_root y_root : Z)
  | ButtonRelease1
  | Button3.

Definition handle (w : widget) (ev : ui_event) : widget :=
  match ev with
  | Button1 x y => start_drag w x y
  | B1Motion x y => on_drag w x y
  | ButtonRelease1 => stop_drag w
  | Button3 => quit w
  end.

Section Program.

Variable float_of_str : string -> option float.

(** The two fields of a decoded body, as lines 185-187 read them. *)
Definition read_sample (data : pyval) : result (float * float) :=
  d <- subscript data "data" ;;
  token_data <- subscript d "attributes" ;;
  p <- subscript token_data "base_token_price_usd" ;;
  price <- py_float float_of_str p ;;
  pc <- subscript token_data "price_change_percentage" ;;
  h <- subscript pc "h24" ;;
  change <- py_float float_of_str h ;;
  Ok (price, change).

(** The test [data and "data" in data]. *)
Definition has_data (data : pyval) : result bool :=
  if truthy data then contains "data" data else Ok false.

(** Lines 184-189: what one iteration does with the fetched [data]. *)
Definition process (ctx : context) (w : widget) (data : pyval)
  : result widget :=
  c <- has_data data ;;
  if (c : bool)
  then s <- read_sample data ;;
       Ok (update_price_display ctx w (fst s) (snd s))
  else Ok w.

(** The largest number of whole seconds whose nanoseconds fit the signed
    64-bit integer in which [time.sleep] keeps its argument. *)
Definition SLEEP_MAX : Z := 9223372036.

(** [time.sleep(secs)] for an [int]: [OverflowError] when the length does
    not fit, then [ValueError] when it is negative. *)
Definition sleep_check (secs : Z) : result unit :=
  if ((secs <? - SLEEP_MAX) || (SLEEP_MAX <? secs))%Z then Raise OverflowError
  else if (secs <? 0)%Z then Raise ValueError
  else Ok tt.

(** Where the thread running [_update_price_loop] stands. *)
Inductive worker_pc :=
  | AtLoopTest
  | InFetch
  | InSleep
  | LoopExited
  | Died (e : exn).

(** The widget together with its worker thread.  [fetches] counts the
    iterations begun, that is the loop tests passed, each of which calls
    [_fetch_price_data] once; [slept] adds up the lengths of the completed
    sleeps. *)
Record world := mkWorld {
  wdg : widget;
  worker : worker_pc;
  fetches : nat;
  slept : Z
}.

Definition with_widget (s : world) (w : widget) : world :=
  {| wdg := w; worker := worker s; fetches := fetches s; slept := slept s |}.

Definition with_worker (s : world) (pc : worker_pc) : world :=
  {| wdg := wdg s; worker := pc; fetches := fetches s; slept := slept s |}.

(** One step of [_update_price_loop]: the loop test, which begins an
    iteration or leaves the loop; the rest of the iteration up to the call of
    [time.sleep] ([o] is what its request meets); the end of the sleep. *)
Definition worker_step (s : world) (o : Http.outcome) : world :=
  match worker s with
  | AtLoopTest =>
      if running (wdg s)
      then {| wdg := wdg s; worker := InFetch;
              fetches := S (fetches s); slept := slept s |}
      else with_worker s LoopExited
  | InFetch =>
      match data <- fetch_price_data o ;;
            process WorkerThread (wdg s) data with
      | Raise e => with_worker s (Died e)
      | Ok w' =>
          match sleep_check (UPDATE_INTERVAL (config w')) with
          | Raise e => with_worker (with_widget s w') (Died e)
          | Ok _ => with_worker (with_widget s w') InSleep
          end
      end
  | InSleep =>
      {| wdg := wdg s; worker := AtLoopTest; fetches := fetches s;
         slept := slept s + UPDATE_INTERVAL (config (wdg s)) |}
  | LoopExited | Died _ => s
  end.

(** The two threads interleave: a step is an event handled by the UI
    thread or a step of the worker. *)
Inductive event :=
  | Ui (ev : ui_event)
  | Work (o : Http.outcome).

Definition step (s : world) (e : event) : world :=
  match e with
  | Ui ev => with_widget s (handle (wdg s) ev)
  | Work o => worker_step s o
  end.

Definition run (s : world) (evs : list event) : world :=
  fold_left step evs s.

End Program.

(* ------------------------------------------------------------------ *)
(** ** The constructor *)

(** What [_load_logo] finds at [image_path]: no file, a file PIL cannot turn
    into a [PhotoImage] (the message of the exception it raises), or a
    usable image. *)
Inductive logo_file :=
  | LogoMissing
  | LogoUnreadable (message : string)
  | LogoReadable.

Record environment := mkEnv {
  image_path : string;
  logo : logo_file;
  screen_width : Z;
  window_width : Z
}.

Inductive bound_widget := OnPriceLabel | OnPercentLabel | OnImageLabel.

(** The object while [__init__] runs: an attribute that is not set yet is
    [None]; [bindings] lists the [bind] calls made, oldest first; [stdout]
    the lines printed, oldest first. *)
Record object := mkObject {
  o_price_label : option label;
  o_percent_label : option label;
  o_image_label : option unit;
  bindings : list (bound_widget * string);
  stdout : list string
}.

Definition new_object : object :=
  {| o_price_label := None; o_percent_label := None; o_image_label := None;
     bindings := []; stdout := [] |}.

Definition print (o : object) (line : string) : object :=
  {| o_price_label := o_price_label o;
     o_percent_label := o_percent_label o;
     o_image_label := o_image_label o;
     bindings := bindings o;
     stdout := stdout o ++ [line] |}.

(** [_load_logo]: every exception of its body is caught and printed. *)
Definition load_logo (env : environment) (o : object) : object :=
  match logo env with
  | LogoMissing =>
      print o ("Error loading logo: Logo not found at " ++ image_path env)
  | LogoUnreadable message => print o ("Error loading logo: " ++ message)
  | LogoReadable =>
      {| o_price_label := o_price_label o;
         o_percent_label := o_percent_label o;
         o_image_label := Some tt;
         bindings := bindings o;
         stdout := stdout o |}
  end.

Definition loading_label : label := {| text := "Loading..."; fg := "white" |}.
Definition blank_label : label := {| text := ""; fg := "white" |}.

(** [_create_price_labels]. *)
Definition create_price_labels (o : object) : object :=
  {| o_price_label := Some loading_label;
     o_percent_label := Some blank_label;
     o_image_label := o_image_label o;
     bindings := bindings o;
     stdout := stdout o |}.

(** Reading [self.name]. *)
Definition getattr {A : Type} (name : string) (a : option A) : result A :=
  match a with
  | Some x => Ok x
  | None => Raise (AttributeError name)
  end.

Definition bind_sequences (wd : bound_widget) : list (bound_widget * string) :=
  [(wd, "<Button-1>"); (wd, "<B1-Motion>");
   (wd, "<ButtonRelease-1>"); (wd, "<Button-3>")].

(** [_bind_events]: the tuple of the three widgets is built first, then each
    gets its four bindings.  The two text labels are returned for the
    caller. *)
Definition bind_events (o : object) : result (object * (label * label)) :=
  pl <- getattr "price_label" (o_price_label o) ;;
  cl <- getattr "percent_label" (o_percent_label o) ;;
  _ <- getattr "image_label" (o_image_label o) ;;
  Ok ({| o_price_label := o_price_label o;
         o_percent_label := o_percent_label o;
         o_image_label := o_image_label o;
         bindings :=
           bindings o
             ++ flat_map bind_sequences
                  [OnPriceLabel; OnPercentLabel; OnImageLabel];
         stdout := stdout o |}, (pl, cl)).

(** The widget a completed [__init__] leaves, placed by [_position_window]. *)
Definition new_widget (cfg : WidgetConfig) (pl cl : label) (x y : Z)
  : widget :=
  {| config := cfg;
     previous_price := None;
     running := true;
     price_label := pl;
     percent_label := cl;
     drag_data := None;
     win_x := x;
     win_y := y;
     tk_quit := false;
     applied := [] |}.

(** [CryptoPriceWidget(config)]: the object as construction leaves it, and
    either the running program (widget and freshly started worker) or the
    exception that leaves [__init__]. *)
Definition construct (cfg : WidgetConfig) (env : environment)
  : object * result world :=
  let o := create_price_labels (load_logo env new_object) in
  match bind_events o with
  | Raise e => (o, Raise e)
  | Ok (o', (pl, cl)) =>
      (o', Ok {| wdg := new_widget cfg pl cl
                          (screen_width env - window_width env - 20) 20;
                 worker := AtLoopTest;
                 fetches := 0;
                 slept := 0 |})
  end.

(** The program right after a successful start. *)
Definition started (cfg : WidgetConfig) (x y : Z) : world :=
  {| wdg := new_widget cfg loading_label blank_label x y;
     worker := AtLoopTest; fetches := 0; slept := 0 |}.

(* ------------------------------------------------------------------ *)
(** ** Shape of a fixed-point numeral *)

(** Splits a string at its first point. *)
Fixpoint split_point (s : string) : option (string * string) :=
  match s with
  | EmptyString => None
  | String c s' =>
      if Ascii.eqb c "."
      then Some (EmptyString, s')
      else match split_point s' with
           | Some (a, b) => Some (String c a, b)
           | None => None
           end
  end.

Definition strip_minus (s : string) : string :=
  match s with
  | String c s' => if Ascii.eqb c "-" then s' else s
  | EmptyString => s
  end.

(** [s] reads: an optional minus, at least one digit, a point, exactly
    [prec] digits. *)
Definition fixed_shape (prec : nat) (s : string) : bool :=
  match split_point (strip_minus s) with
  | Some (i, f) =>
      (negb (String.eqb i "") && PyFloat.all_digits i
       && PyFloat.all_digits f && Nat.eqb (String.length f) prec)%bool
  | None => false
  end.

(** The same without the minus. *)
Definition unsigned_fixed_shape (prec : nat) (s : string) : bool :=
  match split_point s with
  | Some (i, f) =>
      (negb (String.eqb i "") && PyFloat.all_digits i
       && PyFloat.all_digits f && Nat.eqb (String.length f) prec)%bool
  | None => false
  end.

(* ------------------------------------------------------------------ *)
(** ** Sequences of samples *)

Definition sample : Type := (float * float)%type.

(** Successive calls of [_update_price_display], one per sample. *)
Definition apply_samples (ctx : context) (w : widget) (l : list sample)
  : widget :=
  fold_left (fun w s => update_price_display ctx w (fst s) (snd s)) l w.

Fixpoint last_sample (l : list sample) : option sample :=
  match l with
  | [] => None
  | [s] => Some s
  | _ :: l' => last_sample l'
  end.

(** The price text is ["$"] followed by a numeral with six decimals. *)
Definition shows_price_6 (w : widget) : Prop :=
  exists t, text (price_label w) = "$" ++ t /\ fixed_shape 6 t = true.

(** The change text is a glyph, an unsigned numeral with two decimals and a
    percent sign. *)
Definition shows_change_2 (w : widget) (glyph : string) : Prop :=
  exists t, text (percent_label w) = glyph ++ t ++ "%"
            /\ unsigned_fixed_shape 2 t = true.

(* ------------------------------------------------------------------ *)
(** ** Reading a float from a string *)

Module Numeral.

(** The characters [float()] strips from both ends of an ASCII string:
    tab, line feed, vertical tab, form feed, carriage return and space. *)
Definition is_space (c : ascii) : bool :=
  let n := nat_of_ascii c in
  (Nat.eqb n 32 || (Nat.leb 9 n && Nat.leb n 13))%bool.

Fixpoint lstrip (s : string) : string :=
  match s with
  | String c s' => if is_space c then lstrip s' else s
  | EmptyString => s
  end.

Fixpoint rev_onto (s acc : string) : string :=
  match s with
  | EmptyString => acc
  | String c s' => rev_onto s' (String c acc)
  end.

Definition strip (s : string) : string :=
  rev_onto (lstrip (rev_onto (lstrip s) "")) "".

Definition lower (c : ascii) : ascii :=
  let n := nat_of_ascii c in
  if (Nat.leb 65 n && Nat.leb n 90)%bool then ascii_of_nat (n + 32) else c.

Fixpoint lowercase (s : string) : string :=
  match s with
  | EmptyString => EmptyString
  | String c s' => String (lower c) (lowercase s')
  end.

Definition digit_value (c : ascii) : option Z :=
  let n := nat_of_ascii c in
  if (Nat.leb 48 n && Nat.leb n 57)%bool then Some (Z.of_nat n - 48) else None.

(** Reads the rest of a digit part after a digit: more digits, each
    optionally preceded by one underscore.  Returns the accumulated value,
    the number of digits read and the unread rest. *)
Fixpoint more_digits (s : string) (acc : Z) (n : Z) : Z * Z * string :=
  match s with
  | String c s' =>
      match digit_value c with
      | Some d => more_digits s' (10 * acc + d) (n + 1)
      | None =>
          if Ascii.eqb c "_"
          then match s' with
               | String c' s'' =>
                   match digit_value c' with
                   | Some d => more_digits s'' (10 * acc + d) (n + 1)
                   | None => (acc, n, s)
                   end
               | EmptyString => (acc, n, s)
               end
          else (acc, n, s)
      end
  | EmptyString => (acc, n, s)
  end.

(** A digit part continuing the value [acc]; [None] when [s] does not start
    with a digit. *)
Definition digit_part (s : string) (acc : Z) : option (Z * Z * string) :=
  match s with
  | String c s' =>
      match digit_value c with
      | Some d => Some (more_digits s' (10 * acc + d) 1)
      | None => None
      end
  | EmptyString => None
  end.

(** Mantissa digits as an integer with the number of digits after the
    point. *)
Definition mantissa (s : string) : option (Z * Z * string) :=
  match s with
  | String "." s' =>
      match digit_part s' 0 with
      | Some (m, k, r) => Some (m, k, r)
      | None => None
      end
  | _ =>
      match digit_part s 0 with
      | Some (m, _, String "." r) =>
          match digit_part r m with
          | Some (m', k, r') => Some (m', k, r')
          | None => Some (m, 0, r)
          end
      | Some (m, _, r) => Some (m, 0, r)
      | None => None
      end
  end.

Definition signed (s : string) : bool * string :=
  match s with
  | String "-" s' => (true, s')
  | String "+" s' => (false, s')
  | _ => (false, s)
  end.

(** The exponent part; [Some 0] when there is none, [None] when it is
    malformed or followed by anything. *)
Definition exponent (s : string) : option Z :=
  match s with
  | EmptyString => Some 0
  | String c s' =>
      if (Ascii.eqb c "e" || Ascii.eqb c "E")%bool
      then let (neg, r) := signed s' in
           match digit_part r 0 with
           | Some (e, _, EmptyString) => Some (if neg then - e else e)
           | _ => None
           end
      else None
  end.

(** [m * 10^e] rounded to the nearest binary64, ties to even. *)
Definition nearest (neg : bool) (m e : Z) : spec_float :=
  match m with
  | Zpos p =>
      if (0 <=? e)%Z
      then binary_normalize prec emax
             (if neg then - (m * 10 ^ e) else m * 10 ^ e) 0 false
      else SFdiv prec emax (S754_finite neg p 0)
             (S754_finite false (Z.to_pos (10 ^ (- e))) 0)
  | _ => S754_zero neg
  end.

(** [float(s)] for a [str] of ASCII characters: surrounding white space, a
    sign, then [inf], [infinity] or [nan] in any case, or a decimal numeral
    with an optional exponent.  It serves to run the program on concrete
    bodies; strings with other characters, some of which [float()] accepts,
    are outside it. *)
Definition float_of_str (s : string) : option float :=
  let (neg, body) := signed (strip s) in
  let word := lowercase body in
  if (String.eqb word "inf" || String.eqb word "infinity")%bool
  then Some (SF2Prim (S754_infinity neg))
  else if String.eqb word "nan" then Some PrimFloat.nan
  else
    match mantissa body with
    | Some (m, k, r) =>
        match exponent r with
        | Some e => Some (SF2Prim (nearest neg m (e - k)))
        | None => None
        end
    | None => None
    end.

End Numeral.

(* ------------------------------------------------------------------ *)
(** ** Drag sessions *)

Definition handle_all (w : widget) (evs : list ui_event) : widget :=
  fold_left handle evs w.

(** Press at [pressed], motion through [moved], release. *)
Record drag_session := mkSession {
  pressed : Z * Z;
  moved : list (Z * Z)
}.

Definition motion (p : Z * Z) : ui_event := B1Motion (fst p) (snd p).

Definition session_events (d : drag_session) : list ui_event :=
  Button1 (fst (pressed d)) (snd (pressed d))
    :: map motion (moved d) ++ [ButtonRelease1].

(** How far the pointer is from where it was pressed when it is released. *)
Definition displacement (d : drag_session) : Z * Z :=
  let p := last (moved d) (pressed d) in
  (fst p - fst (pressed d), snd p - snd (pressed d)).

Fixpoint total_displacement (ds : list drag_session) : Z * Z :=
  match ds with
  | [] => (0, 0)
  | d :: ds' =>
      (fst (displacement d) + fst (total_displacement ds'),
       snd (displacement d) + snd (total_displacement ds'))
  end.

(* ------------------------------------------------------------------ *)
(** ** Histories of a run *)

Definition is_button3 (ev : ui_event) : bool :=
  match ev with
  | Button3 => true
  | _ => false
  end.

Definition is_quit (e : event) : bool :=
  match e with
  | Ui Button3 => true
  | _ => false
  end.

Definition is_work (e : event) : bool :=
  match e with
  | Work _ => true
  | Ui _ => false
  end.

(** The successive values of a boolean flag, and how many times it goes
    from [true] to [false]. *)
Fixpoint falls (l : list bool) : nat :=
  match l with
  | b1 :: l' =>
      match l' with
      | b2 :: _ => (if (b1 && negb b2)%bool then 1 else 0) + falls l'
      | [] => 0
      end
  | [] => 0
  end.

Fixpoint rises (l : list bool) : nat :=
  match l with
  | b1 :: l' =>
      match l' with
      | b2 :: _ => (if (negb b1 && b2)%bool then 1 else 0) + rises l'
      | [] => 0
      end
  | [] => 0
  end.

Section Histories.

Variable float_of_str : string -> option float.

(** The values of [running] before the first event and after each one. *)
Fixpoint running_history (s : world) (evs : list event) : list bool :=
  running (wdg s)
    :: match evs with
       | [] => []
       | e :: evs' => running_history (step float_of_str s e) evs'
       end.

End Histories.

Definition count_work (evs : list event) : nat :=
  List.length (filter is_work evs).

(** Where a worker that was asleep when [running] was cleared stands after
    [n] more of its steps. *)
Definition after_close (n : nat) : worker_pc :=
  match n with
  | O => InSleep
  | S O => AtLoopTest
  | S (S _) => LoopExited
  end.

(** The price given to the latest call of [_update_price_display]. *)
Definition last_applied_price (w : widget) : option float :=
  match applied w with
  | [] => None
  | (_, price, _) :: _ => Some price
  end.

(** A body of the shape the API documents, with both numbers as strings. *)
Definition body_of (price h24 : string) : pyval :=
  VDict [("data",
          VDict [("attributes",
                  VDict [("base_token_price_usd", VStr price);
                         ("price_change_percentage",
                          VDict [("h24", VStr h24)])])])].

(** A 200 response with the body the API documents. *)
Definition good_response : Http.outcome :=
  Http.Responded 200 (Some (body_of "0.0123" "1.5")).

(** The program after its first complete cycle on [good_response]: the
    worker is asleep. *)
Definition after_first_cycle : world :=
  run Numeral.float_of_str (started default_config 1836 20)
    [Work good_response; Work good_response].

(* ------------------------------------------------------------------ *)
(** ** Iterations, the event loop and numerals read back *)



Section Samples.

Variable float_of_str : string -> option float.



End Samples.

(** The worker has left [_update_price_loop], by the loop test or by an
    exception. *)
Definition stopped (pc : worker_pc) : bool :=
  match pc with
  | LoopExited | Died _ => true
  | _ => false
  end.

Definition is_dict (v : pyval) : bool :=
  match v with
  | VDict _ => true
  | _ => false
  end.

(** [bool], [int] and [float] objects: not containers. *)
Definition is_number (v : pyval) : bool :=
  match v with
  | VBool _ | VInt _ | VFloat _ => true
  | _ => false
  end.

(** How the requests issued and the time slept go together, for a worker
    that sleeps [interval] after each iteration: at the loop test all the
    sleeps so far are complete, one per request; past it, the latest
    request's sleep is still to come (or never came). *)
Definition paced (interval : Z) (s : world) : Prop :=
  match worker s with
  | AtLoopTest | LoopExited => slept s = interval * Z.of_nat (fetches s)
  | InFetch | InSleep | Died _ =>
      slept s + interval = interval * Z.of_nat (fetches s)
  end.

(** [app.mainloop()] on the events the window receives: Tk hands each one to
    its handler until the quit flag is raised; the events that follow are
    never dispatched. *)
Fixpoint mainloop (w : widget) (evs : list ui_event) : widget :=
  match evs with
  | [] => w
  | ev :: evs' => if tk_quit w then w else mainloop (handle w ev) evs'
  end.

Definition is_nan (x : float) : bool :=
  match Prim2SF x with
  | S754_nan => true
  | _ => false
  end.







(* ------------------------------------------------------------------ *)
(** * Theorems *)

(** ** Numerals *)

Lemma digit_char_is_digit (d : Z) :
  0 <= d < 10 -> PyFloat.is_digit (PyFloat.digit_char d) = true.
Proof.
  intros H.
  assert (E : d = 0 \/ d = 1 \/ d = 2 \/ d = 3 \/ d = 4 \/ d = 5 \/ d = 6
              \/ d = 7 \/ d = 8 \/ d = 9) by lia.
  repeat (destruct E as [E | E]; [subst d; reflexivity |]).
  subst d; reflexivity.
Qed.

Lemma fixed_digits_length (k : nat) : forall n acc,
  String.length (PyFloat.fixed_digits k n acc) = (k + String.length acc)%nat.
Proof.
  induction k as [|k IH]; intros n acc; cbn [PyFloat.fixed_digits].
  - reflexivity.
  - rewrite IH. cbn [String.length]. lia.
Qed.

Lemma fixed_digits_all_digits (k : nat) : forall n acc,
  PyFloat.all_digits acc = true ->
  PyFloat.all_digits (PyFloat.fixed_digits k n acc) = true.
Proof.
  induction k as [|k IH]; intros n acc Hacc; cbn [PyFloat.fixed_digits].
  - exact Hacc.
  - apply IH. cbn [PyFloat.all_digits]. rewrite Hacc, andb_true_r.
    apply digit_char_is_digit. apply Z.mod_pos_bound. lia.
Qed.

Lemma uint_all_digits (d : Decimal.uint) :
  PyFloat.all_digits (NilEmpty.string_of_uint d) = true.
Proof. induction d; simpl; auto. Qed.

Lemma int_digits_all_digits (n : Z) :
  PyFloat.all_digits (PyFloat.int_digits n) = true.
Proof.
  unfold PyFloat.int_digits, NilZero.string_of_uint.
  destruct (N.to_uint (Z.to_N n)); try reflexivity;
    apply (uint_all_digits (_ _)).
Qed.

Lemma int_digits_nonempty (n : Z) :
  String.eqb (PyFloat.int_digits n) "" = false.
Proof.
  unfold PyFloat.int_digits, NilZero.string_of_uint.
  destruct (N.to_uint (Z.to_N n)); reflexivity.
Qed.

Lemma is_digit_not_point (c : ascii) :
  PyFloat.is_digit c = true -> Ascii.eqb c "." = false.
Proof.
  destruct (Ascii.eqb_spec c ".") as [-> |]; [discriminate | reflexivity].
Qed.

Lemma is_digit_not_minus (c : ascii) :
  PyFloat.is_digit c = true -> Ascii.eqb c "-" = false.
Proof.
  destruct (Ascii.eqb_spec c "-") as [-> |]; [discriminate | reflexivity].
Qed.

Lemma split_point_digits (a b : string) :
  PyFloat.all_digits a = true ->
  split_point (a ++ String "." b) = Some (a, b).
Proof.
  induction a as [|c a IH]; cbn [PyFloat.all_digits append split_point];
    intros H.
  - reflexivity.
  - apply andb_true_iff in H. destruct H as [Hc Ha].
    rewrite (is_digit_not_point c Hc), (IH Ha). reflexivity.
Qed.

Lemma fixed_str_unsigned_shape (p : nat) (n : Z) :
  unsigned_fixed_shape (S p) (PyFloat.fixed_str (S p) n) = true.
Proof.
  unfold unsigned_fixed_shape, PyFloat.fixed_str, PyFloat.frac_str.
  rewrite split_point_digits by apply int_digits_all_digits.
  rewrite int_digits_nonempty, int_digits_all_digits.
  rewrite fixed_digits_all_digits by reflexivity.
  rewrite fixed_digits_length. simpl String.length.
  rewrite Nat.add_0_r, Nat.eqb_refl. reflexivity.
Qed.

Lemma strip_minus_sign (s : bool) (p : nat) (n : Z) :
  strip_minus (PyFloat.sign_str s ++ PyFloat.fixed_str p n)
  = PyFloat.fixed_str p n.
Proof.
  destruct s; cbn [PyFloat.sign_str append].
  - reflexivity.
  - unfold PyFloat.fixed_str.
    pose proof (int_digits_all_digits (n / 10 ^ Z.of_nat p)) as Ha.
    pose proof (int_digits_nonempty (n / 10 ^ Z.of_nat p)) as Hn.
    destruct (PyFloat.int_digits (n / 10 ^ Z.of_nat p)) as [|c r];
      [discriminate |].
    cbn [PyFloat.all_digits] in Ha.
    apply andb_true_iff in Ha. destruct Ha as [Hc _].
    cbn [append strip_minus]. rewrite (is_digit_not_minus c Hc). reflexivity.
Qed.

(** A finite float prints, at a positive precision, as a numeral with exactly
    that many decimals. *)
Lemma format_f_shape (p : nat) (x : float) :
  PyFloat.is_finite x = true ->
  fixed_shape (S p) (PyFloat.format_f (S p) x) = true.
Proof.
  unfold PyFloat.is_finite, PyFloat.format_f, fixed_shape.
  destruct (Prim2SF x) as [s | s | | s m e]; try discriminate; intros _;
    rewrite strip_minus_sign; apply fixed_str_unsigned_shape.
Qed.

(** The absolute value of a finite float prints without a sign. *)
Lemma format_f_abs_shape (p : nat) (x : float) :
  PyFloat.is_finite x = true ->
  unsigned_fixed_shape (S p) (PyFloat.format_f (S p) (PrimFloat.abs x)) = true.
Proof.
  unfold PyFloat.is_finite, PyFloat.format_f.
  rewrite abs_spec.
  destruct (Prim2SF x) as [s | s | | s m e]; try discriminate; intros _;
    cbn [SFabs PyFloat.sign_str append]; apply fixed_str_unsigned_shape.
Qed.

(** ** Colors and texts of the display *)

Lemma apply_samples_snoc (ctx : context) (w : widget) (l : list sample)
    (s : sample) :
  apply_samples ctx w (l ++ [s])
  = update_price_display ctx (apply_samples ctx w l) (fst s) (snd s).
Proof. unfold apply_samples. rewrite fold_left_app. reflexivity. Qed.

Lemma last_sample_cons (l : list sample) :
  forall a, last_sample (a :: l) <> None.
Proof.
  induction l as [|b l IH]; intros a.
  - discriminate.
  - change (last_sample (a :: b :: l)) with (last_sample (b :: l)). apply IH.
Qed.

Lemma previous_price_apply_samples (ctx : context) (l : list sample) :
  forall w,
    previous_price (apply_samples ctx w l)
    = match last_sample l with
      | Some q => Some (fst q)
      | None => previous_price w
      end.
Proof.
  induction l as [|a l IH]; intros w.
  - reflexivity.
  - change (apply_samples ctx w (a :: l))
      with (apply_samples ctx (update_price_display ctx w (fst a) (snd a)) l).
    rewrite IH. destruct l as [|b l]; [reflexivity |].
    change (last_sample (a :: b :: l)) with (last_sample (b :: l)).
    pose proof (last_sample_cons l b) as N.
    destruct (last_sample (b :: l)); [reflexivity | contradiction].
Qed.

Lemma up_down_distinct : UP_COLOR <> DOWN_COLOR.
Proof. discriminate. Qed.

(** C2. Starting from a freshly constructed widget, after the samples
    [pre ++ [s]] have been applied the price label is in the up color when
    [s] is the first sample, and otherwise exactly when the price of [s] is
    [>=] the price of the sample before it (the down color if not); the
    change label is in the up color exactly when the change of [s] is [>= 0]
    (the down color if not), whatever the prices are. *)
Theorem colors_follow_samples (ctx : context) (cfg : WidgetConfig)
    (pl cl : label) (x y : Z) (pre : list sample) (s : sample) :
  let w := apply_samples ctx (new_widget cfg pl cl x y) (pre ++ [s]) in
  match last_sample pre with
  | None => fg (price_label w) = UP_COLOR
  | Some q =>
      (fg (price_label w) = UP_COLOR <-> PyFloat.ge (fst s) (fst q) = true)
      /\ (fg (price_label w) = DOWN_COLOR
          <-> PyFloat.ge (fst s) (fst q) = false)
  end
  /\ (fg (percent_label w) = UP_COLOR <-> PyFloat.ge_zero (snd s) = true)
  /\ (fg (percent_label w) = DOWN_COLOR <-> PyFloat.ge_zero (snd s) = false).
Proof.
  intros w. subst w. rewrite apply_samples_snoc.
  cbn [update_price_display price_label percent_label fg].
  rewrite previous_price_apply_samples.
  cbn [new_widget previous_price].
  pose proof up_down_distinct as D.
  split; [| unfold percent_color; destruct (PyFloat.ge_zero (snd s));
            repeat split; intros; congruence ].
  destruct (last_sample pre) as [q|]; cbn [price_color].
  - destruct (PyFloat.ge (fst s) (fst q)); repeat split; intros; congruence.
  - reflexivity.
Qed.

Lemma example_sample_display (ctx : context) (w : widget) :
  let w' := update_price_display ctx w 1.234567%float (-0.5)%float in
  text (price_label w') = "$1.234567"
  /\ text (percent_label w') = "↓0.50%"
  /\ previous_price w' = Some 1.234567%float.
Proof. repeat split; vm_compute; reflexivity. Qed.

(** C3, as amended. For every applied sample whose price and change are
    finite floats, the price text is ["$"] followed by the price printed with
    exactly 6 decimals, and the change text is the up glyph when the change
    is [>= 0] and the down glyph otherwise, followed by the absolute value of
    the change printed with exactly 2 decimals and ["%"]; the sample
    (1.234567, -0.5) displays ["$1.234567"] and ["↓0.50%"] and leaves
    1.234567 as the previous price. *)
Theorem finite_sample_texts (ctx : context) (w : widget)
    (price change : float) :
  PyFloat.is_finite price = true ->
  PyFloat.is_finite change = true ->
  let w' := update_price_display ctx w price change in
  shows_price_6 w'
  /\ text (price_label w') = "$" ++ PyFloat.format_f 6 price
  /\ shows_change_2 w'
       (if PyFloat.ge_zero change then UP_GLYPH else DOWN_GLYPH)
  /\ text (percent_label w')
     = (if PyFloat.ge_zero change then UP_GLYPH else DOWN_GLYPH)
         ++ PyFloat.format_f 2 (PrimFloat.abs change) ++ "%"
  /\ previous_price w' = Some price
  /\ (let e := update_price_display ctx w 1.234567%float (-0.5)%float in
      text (price_label e) = "$1.234567"
      /\ text (percent_label e) = "↓0.50%"
      /\ previous_price e = Some 1.234567%float).
Proof.
  intros Hp Hc w'. subst w'.
  refine (conj _ (conj eq_refl (conj _ (conj eq_refl (conj eq_refl _))))).
  - exists (PyFloat.format_f 6 price). split; [reflexivity |].
    apply format_f_shape, Hp.
  - exists (PyFloat.format_f 2 (PrimFloat.abs change)). split; [reflexivity |].
    apply format_f_abs_shape, Hc.
  - apply example_sample_display.
Qed.

Lemma finite_sample_texts_witness :
  let w := new_widget default_config loading_label blank_label 1836 20 in
  let w' := update_price_display WorkerThread w 1.3%float 2.1%float in
  shows_price_6 w'
  /\ text (price_label w') = "$" ++ PyFloat.format_f 6 1.3%float
  /\ shows_change_2 w'
       (if PyFloat.ge_zero 2.1%float then UP_GLYPH else DOWN_GLYPH)
  /\ text (percent_label w')
     = (if PyFloat.ge_zero 2.1%float then UP_GLYPH else DOWN_GLYPH)
         ++ PyFloat.format_f 2 (PrimFloat.abs 2.1%float) ++ "%"
  /\ previous_price w' = Some 1.3%float
  /\ (let e := update_price_display WorkerThread w 1.234567%float
                 (-0.5)%float in
      text (price_label e) = "$1.234567"
      /\ text (percent_label e) = "↓0.50%"
      /\ previous_price e = Some 1.234567%float).
Proof.
  apply (finite_sample_texts WorkerThread
           (new_widget default_config loading_label blank_label 1836 20)
           1.3%float 2.1%float); reflexivity.
Defined.

(** C3, as stated, fails on a sample that is not finite: the price [+inf]
    is displayed as ["$inf"] and the change NaN as ["↓nan%"], neither of
    which has decimals. *)
Lemma non_finite_sample_texts :
  let w := new_widget default_config loading_label blank_label 1836 20 in
  let w' := update_price_display WorkerThread w PrimFloat.infinity
              PrimFloat.nan in
  text (price_label w') = "$inf"
  /\ text (percent_label w') = "↓nan%"
  /\ ~ shows_price_6 w'
  /\ ~ shows_change_2 w' DOWN_GLYPH.
Proof.
  refine (conj eq_refl (conj eq_refl (conj _ _))).
  - intros [t [H1 H2]].
    assert (E : t = "inf") by (vm_compute in H1; congruence).
    subst t. discriminate H2.
  - intros [t [H1 H2]].
    assert (E : (t ++ "%")%string = "nan%").
    { change (text (percent_label _)) with "↓nan%" in H1.
      unfold DOWN_GLYPH in H1. cbn [append] in H1.
      injection H1 as E. symmetry. exact E. }
    destruct t as [|a [|b [|c [|d t]]]]; cbn in E; try discriminate E.
    + injection E as -> -> ->. vm_compute in H2. discriminate H2.
    + injection E as _ _ _ _ E. destruct t; discriminate E.
Qed.

(** ** Dragging *)

Lemma last_cons_default {A : Type} (l : list A) :
  forall p d, last (p :: l) d = last l p.
Proof.
  induction l as [|q l IH]; intros p d.
  - reflexivity.
  - change (last (p :: q :: l) d) with (last (q :: l) d).
    rewrite (IH q d), (IH q p). reflexivity.
Qed.

Lemma handle_all_app (w : widget) (l1 l2 : list ui_event) :
  handle_all w (l1 ++ l2) = handle_all (handle_all w l1) l2.
Proof. unfold handle_all. apply fold_left_app. Qed.

(** While a session is open, motion keeps the anchor and puts the window at
    the last pointer position minus the anchor. *)
Lemma motions_keep_anchor (ms : list (Z * Z)) :
  forall w ax ay,
    drag_data w = Some (ax, ay) ->
    let w' := handle_all w (map motion ms) in
    drag_data w' = Some (ax, ay)
    /\ win_x w' = fst (last ms (win_x w + ax, win_y w + ay)) - ax
    /\ win_y w' = snd (last ms (win_x w + ax, win_y w + ay)) - ay.
Proof.
  induction ms as [|p ms IH]; intros w ax ay Hd; cbn zeta.
  - cbn [map handle_all fold_left last fst snd]. repeat split; [exact Hd | lia | lia].
  - change (handle_all w (map motion (p :: ms)))
      with (handle_all (on_drag w (fst p) (snd p)) (map motion ms)).
    assert (E : on_drag w (fst p) (snd p)
                = geometry w (fst p - ax) (snd p - ay))
      by (unfold on_drag; rewrite Hd; reflexivity).
    rewrite E.
    destruct (IH (geometry w (fst p - ax) (snd p - ay)) ax ay Hd)
      as [H1 [H2 H3]].
    rewrite last_cons_default.
    cbn [geometry win_x win_y] in H2, H3.
    replace (fst p - ax + ax, snd p - ay + ay) with p in H2, H3
      by (destruct p as [a b]; cbn [fst snd]; f_equal; lia).
    auto.
Qed.

(** A whole session moves the window by the pointer's displacement and
    leaves no anchor behind. *)
Lemma session_moves_window (d : drag_session) (w : widget) :
  let w' := handle_all w (session_events d) in
  win_x w' = win_x w + fst (displacement d)
  /\ win_y w' = win_y w + snd (displacement d)
  /\ drag_data w' = None.
Proof.
  cbn zeta. unfold session_events.
  change (handle_all w (?e :: ?l)) with (handle_all (handle w e) l).
  rewrite handle_all_app. cbn [handle].
  set (w1 := start_drag w (fst (pressed d)) (snd (pressed d))).
  destruct (motions_keep_anchor (moved d) w1
              (fst (pressed d) - win_x w) (snd (pressed d) - win_y w)
              eq_refl) as [H1 [H2 H3]].
  set (w2 := handle_all w1 (map motion (moved d))) in *.
  change (handle_all w2 [ButtonRelease1]) with (stop_drag w2).
  unfold stop_drag. rewrite H1. cbn [set_drag_data win_x win_y drag_data].
  rewrite H2, H3. subst w1. cbn [start_drag set_drag_data win_x win_y].
  unfold displacement.
  replace (win_x w + (fst (pressed d) - win_x w),
           win_y w + (snd (pressed d) - win_y w)) with (pressed d)
    by (destruct (pressed d) as [a b]; cbn [fst snd]; f_equal; lia).
  cbn [fst snd]. repeat split; lia.
Qed.

Lemma sessions_move_window (ds : list drag_session) :
  forall w,
    let w' := handle_all w (flat_map session_events ds) in
    win_x w' = win_x w + fst (total_displacement ds)
    /\ win_y w' = win_y w + snd (total_displacement ds).
Proof.
  induction ds as [|d ds IH]; intros w; cbn zeta.
  - cbn [flat_map handle_all fold_left total_displacement fst snd].
    split; lia.
  - cbn [flat_map total_displacement fst snd]. rewrite handle_all_app.
    destruct (session_moves_window d w) as [H1 [H2 _]].
    destruct (IH (handle_all w (session_events d))) as [K1 K2].
    rewrite K1, K2, H1, H2. split; lia.
Qed.

(** C4. A press at [(px0, py0)] followed by a move to [(px1, py1)] puts the
    window at its position at the press plus [(px1 - px0, py1 - py0)]; a
    move while no session is open (as right after construction) changes
    nothing; every press sets the anchor to pointer minus window, whatever
    anchor was there; and after any number of complete sessions the window
    is at its first position plus the sum of the sessions' displacements,
    with no session left open after a release. *)
Theorem drag_moves_window_exactly :
  (forall w px0 py0 px1 py1,
     let w' := handle_all w [Button1 px0 py0; B1Motion px1 py1] in
     win_x w' = win_x w + (px1 - px0) /\ win_y w' = win_y w + (py1 - py0))
  /\ (forall w x y, drag_data w = None -> handle w (B1Motion x y) = w)
  /\ (forall cfg pl cl x y, drag_data (new_widget cfg pl cl x y) = None)
  /\ (forall w x y,
        drag_data (handle w (Button1 x y))
        = Some (x - win_x w, y - win_y w))
  /\ (forall w ds,
        let w' := handle_all w (flat_map session_events ds) in
        win_x w' = win_x w + fst (total_displacement ds)
        /\ win_y w' = win_y w + snd (total_displacement ds))
  /\ (forall w d, drag_data (handle_all w (session_events d)) = None).
Proof.
  refine (conj _ (conj _ (conj _ (conj _ (conj _ _))))).
  - intros w px0 py0 px1 py1. cbn. lia.
  - intros w x y H. cbn [handle]. unfold on_drag. rewrite H. reflexivity.
  - reflexivity.
  - reflexivity.
  - intros w ds. apply (sessions_move_window ds w).
  - intros w d. apply (session_moves_window d w).
Qed.

Lemma drag_moves_window_exactly_witness :
  let w := new_widget default_config loading_label blank_label 1836 20 in
  drag_data w = None /\ handle w (B1Motion 900 400) = w.
Proof.
  split; [reflexivity |].
  apply (proj1 (proj2 drag_moves_window_exactly)). reflexivity.
Defined.

(** ** Fetching *)

Lemma error_status_raises (status : Z) :
  400 <= status < 600 ->
  Http.raise_for_status status = Raise (HTTPError status).
Proof.
  intros H. unfold Http.raise_for_status.
  replace ((400 <=? status)%Z && (status <? 600)%Z)%bool with true
    by (symmetry; apply andb_true_iff; split;
        [apply Z.leb_le | apply Z.ltb_lt]; lia).
  reflexivity.
Qed.

(** C7, as amended. A transport failure, and a response whose status is an
    error status (4xx or 5xx), whatever its body, make [_fetch_price_data]
    return [None]: no exception leaves the call in those cases. *)
Theorem fetch_none_on_failure :
  (forall t, fetch_price_data (Http.Failed t) = Ok VNone)
  /\ (forall status body,
        400 <= status < 600 ->
        fetch_price_data (Http.Responded status body) = Ok VNone)
  /\ (forall status f,
        400 <= status < 600 ->
        fetch_price_data (Http.Undecodable status f) = Ok VNone).
Proof.
  refine (conj _ (conj _ _)).
  - intros t. destruct t; reflexivity.
  - intros status body H. unfold fetch_price_data.
    destruct body; cbn [Http.get bind Http.status_code];
      rewrite (error_status_raises status H); reflexivity.
  - intros status f H. unfold fetch_price_data.
    cbn [Http.get bind Http.status_code].
    rewrite (error_status_raises status H). reflexivity.
Qed.

Lemma fetch_none_on_failure_witness :
  400 <= 503 < 600
  /\ fetch_price_data (Http.Responded 503 (Some (body_of "0.0123" "1.5")))
     = Ok VNone.
Proof.
  split; [lia |].
  apply (proj1 (proj2 fetch_none_on_failure)). lia.
Defined.

(** C7, as stated, fails on a status that is neither a success nor an error
    status: a 300 response is not followed (it names no location),
    [raise_for_status] lets it pass, and its decoded body is returned. *)
Lemma fetch_returns_body_on_300 :
  Http.is_success 300 = false
  /\ fetch_price_data (Http.Responded 300 (Some (body_of "0.0123" "1.5")))
     = Ok (body_of "0.0123" "1.5")
  /\ ~ (forall status body,
          Http.is_success status = false ->
          fetch_price_data (Http.Responded status body) = Ok VNone).
Proof.
  refine (conj eq_refl (conj eq_refl _)).
  intros H.
  specialize (H 300 (Some (body_of "0.0123" "1.5")) eq_refl).
  discriminate H.
Qed.

(** ** Construction *)

(** C8, on the code: when [logo.png] is missing, [_load_logo] prints the
    error and the two text labels are created, but [_bind_events] then reads
    [self.image_label], which was never set: [AttributeError] leaves
    [__init__] with no binding installed and no worker started. *)
Theorem missing_logo_aborts_construction (cfg : WidgetConfig)
    (path : string) (sw ww : Z) :
  construct cfg {| image_path := path; logo := LogoMissing;
                   screen_width := sw; window_width := ww |}
  = ({| o_price_label := Some loading_label;
        o_percent_label := Some blank_label;
        o_image_label := None;
        bindings := [];
        stdout := ["Error loading logo: Logo not found at " ++ path] |},
     Raise (AttributeError "image_label")).
Proof. reflexivity. Qed.

(** With a readable logo the constructor completes: twelve bindings, the
    window placed 20 pixels from the top right corner, the worker started. *)
Lemma readable_logo_completes_construction (cfg : WidgetConfig)
    (path : string) (sw ww : Z) :
  construct cfg {| image_path := path; logo := LogoReadable;
                   screen_width := sw; window_width := ww |}
  = ({| o_price_label := Some loading_label;
        o_percent_label := Some blank_label;
        o_image_label := Some tt;
        bindings :=
          flat_map bind_sequences
            [OnPriceLabel; OnPercentLabel; OnImageLabel];
        stdout := [] |},
     Ok (started cfg (sw - ww - 20) 20)).
Proof. reflexivity. Qed.

(** ** The running program *)

Section Running.

Variable float_of_str : string -> option float.

Local Notation process' := (process float_of_str).
Local Notation worker_step' := (worker_step float_of_str).
Local Notation step' := (step float_of_str).
Local Notation run' := (run float_of_str).
Local Notation running_history' := (running_history float_of_str).

Lemma run_cons (s : world) (e : event) (evs : list event) :
  run' s (e :: evs) = run' (step' s e) evs.
Proof. reflexivity. Qed.


(** An iteration either leaves the widget alone or makes one call of
    [_update_price_display] on the thread that runs it. *)
Lemma process_cases (ctx : context) (w w' : widget) (data : pyval) :
  process' ctx w data = Ok w' ->
  w' = w \/ exists price change, w' = update_price_display ctx w price change.
Proof.
  unfold process.
  destruct (has_data data) as [[|] | e]; cbn [bind].
  - destruct (read_sample float_of_str data) as [[p c] | e]; cbn [bind fst snd].
    + intros [= <-]. right. exists p, c. reflexivity.
    + discriminate.
  - intros [= <-]. left. reflexivity.
  - discriminate.
Qed.

Lemma worker_step_widget (s : world) (o : Http.outcome) :
  wdg (worker_step' s o) = wdg s
  \/ (worker s = InFetch
      /\ exists price change,
           wdg (worker_step' s o)
           = update_price_display WorkerThread (wdg s) price change).
Proof.
  unfold worker_step.
  destruct (worker s) eqn:W; try (left; reflexivity).
  - destruct (running (wdg s)); left; reflexivity.
  - destruct (data <- fetch_price_data o ;; process' WorkerThread (wdg s) data)
      as [w' | e] eqn:P; [| left; reflexivity].
    assert (C : w' = wdg s
                \/ exists price change,
                     w' = update_price_display WorkerThread (wdg s)
                            price change).
    { destruct (fetch_price_data o) as [data | e]; cbn [bind] in P;
        [apply (process_cases _ _ _ _ P) | discriminate]. }
    assert (E : wdg (match sleep_check (UPDATE_INTERVAL (config w')) with
                     | Ok _ => with_worker (with_widget s w') InSleep
                     | Raise e => with_worker (with_widget s w') (Died e)
                     end) = w')
      by (destruct (sleep_check _); reflexivity).
    rewrite E. destruct C as [-> | C]; [left; reflexivity | right; auto].
Qed.

Lemma handle_frame (w : widget) (ev : ui_event) :
  config (handle w ev) = config w
  /\ previous_price (handle w ev) = previous_price w
  /\ applied (handle w ev) = applied w
  /\ price_label (handle w ev) = price_label w
  /\ percent_label (handle w ev) = percent_label w
  /\ running (handle w ev) = (running w && negb (is_button3 ev))%bool.
Proof.
  destruct ev; cbn [handle is_button3 negb];
    unfold start_drag, on_drag, stop_drag;
    try destruct (drag_data w) as [[dx dy] |];
    cbn; rewrite ?andb_true_r, ?andb_false_r; auto 10.
Qed.

Lemma step_config (s : world) (e : event) :
  config (wdg (step' s e)) = config (wdg s).
Proof.
  destruct e as [ev | o]; cbn [step with_widget wdg].
  - apply handle_frame.
  - destruct (worker_step_widget s o) as [-> | [_ [p [c ->]]]]; reflexivity.
Qed.

Lemma step_running (s : world) (e : event) :
  running (wdg (step' s e)) = (running (wdg s) && negb (is_quit e))%bool.
Proof.
  destruct e as [ev | o]; cbn [step with_widget wdg is_quit].
  - destruct (handle_frame (wdg s) ev) as [_ [_ [_ [_ [_ ->]]]]].
    destruct ev; reflexivity.
  - rewrite andb_true_r.
    destruct (worker_step_widget s o) as [-> | [_ [p [c ->]]]]; reflexivity.
Qed.

Lemma run_stays_stopped (evs : list event) :
  forall s, running (wdg s) = false -> running (wdg (run' s evs)) = false.
Proof.
  induction evs as [|e evs IH]; intros s H.
  - exact H.
  - rewrite run_cons. apply IH. rewrite step_running, H. reflexivity.
Qed.

Lemma running_history_head (s : world) (evs : list event) :
  exists t, running_history' s evs = running (wdg s) :: t.
Proof. destruct evs; eexists; reflexivity. Qed.

Lemma falls_cons (b1 b2 : bool) (t : list bool) :
  falls (b1 :: b2 :: t)
  = ((if (b1 && negb b2)%bool then 1 else 0) + falls (b2 :: t))%nat.
Proof. reflexivity. Qed.

Lemma rises_cons (b1 b2 : bool) (t : list bool) :
  rises (b1 :: b2 :: t)
  = ((if (negb b1 && b2)%bool then 1 else 0) + rises (b2 :: t))%nat.
Proof. reflexivity. Qed.

Lemma running_falls_once (evs : list event) :
  forall s,
    falls (running_history' s evs)
    = if (running (wdg s) && existsb is_quit evs)%bool then 1%nat else 0%nat.
Proof.
  induction evs as [|e evs IH]; intros s.
  - cbn. rewrite andb_false_r. reflexivity.
  - cbn [running_history existsb].
    destruct (running_history_head (step' s e) evs) as [t Ht].
    pose proof (IH (step' s e)) as IH'. rewrite Ht in IH' |- *.
    rewrite falls_cons, IH', step_running.
    destruct (running (wdg s)), (is_quit e), (existsb is_quit evs);
      reflexivity.
Qed.

Lemma running_never_rises (evs : list event) :
  forall s, rises (running_history' s evs) = 0%nat.
Proof.
  induction evs as [|e evs IH]; intros s.
  - reflexivity.
  - cbn [running_history].
    destruct (running_history_head (step' s e) evs) as [t Ht].
    pose proof (IH (step' s e)) as IH'. rewrite Ht in IH' |- *.
    rewrite rises_cons, IH', step_running.
    destruct (running (wdg s)), (is_quit e); reflexivity.
Qed.

(** C5. [quit] called twice leaves the same widget, and the same program
    state, as [quit] called once.  Along any run, [running] never goes from
    false to true; started true, it goes from true to false exactly once if
    a close is requested in the run and not at all otherwise; once false it
    is false after any further events. *)
Theorem quit_idempotent_running_one_way :
  (forall w, quit (quit w) = quit w)
  /\ (forall s, step' (step' s (Ui Button3)) (Ui Button3) = step' s (Ui Button3))
  /\ (forall w, running (quit w) = false)
  /\ (forall cfg pl cl x y, running (new_widget cfg pl cl x y) = true)
  /\ (forall s evs, rises (running_history' s evs) = 0%nat)
  /\ (forall s evs,
        falls (running_history' s evs)
        = if (running (wdg s) && existsb is_quit evs)%bool
          then 1%nat else 0%nat)
  /\ (forall s evs,
        running (wdg s) = false -> running (wdg (run' s evs)) = false).
Proof.
  refine (conj _ (conj _ (conj _ (conj _ (conj _ (conj _ _)))))).
  - reflexivity.
  - reflexivity.
  - reflexivity.
  - reflexivity.
  - intros s evs. apply running_never_rises.
  - intros s evs. apply running_falls_once.
  - intros s evs. apply run_stays_stopped.
Qed.

(** ** The previous price *)

Lemma step_previous_price (s : world) (e : event) :
  previous_price (wdg s) = last_applied_price (wdg s) ->
  previous_price (wdg (step' s e)) = last_applied_price (wdg (step' s e)).
Proof.
  intros I. destruct e as [ev | o]; cbn [step with_widget wdg].
  - unfold last_applied_price in *.
    destruct (handle_frame (wdg s) ev) as [_ [-> [-> _]]]. exact I.
  - destruct (worker_step_widget s o) as [-> | [_ [p [c ->]]]];
      [exact I | reflexivity].
Qed.

Lemma step_keeps_previous_price (s : world) (e : event) :
  previous_price (wdg s) <> None ->
  previous_price (wdg (step' s e)) <> None.
Proof.
  intros N. destruct e as [ev | o]; cbn [step with_widget wdg].
  - destruct (handle_frame (wdg s) ev) as [_ [-> _]]. exact N.
  - destruct (worker_step_widget s o) as [-> | [_ [p [c ->]]]];
      [exact N | discriminate].
Qed.

Lemma run_previous_price (evs : list event) :
  forall s,
    previous_price (wdg s) = last_applied_price (wdg s) ->
    previous_price (wdg (run' s evs)) = last_applied_price (wdg (run' s evs)).
Proof.
  induction evs as [|e evs IH]; intros s I.
  - exact I.
  - rewrite run_cons. apply IH, step_previous_price, I.
Qed.

Lemma run_keeps_previous_price (evs : list event) :
  forall s,
    previous_price (wdg s) <> None ->
    previous_price (wdg (run' s evs)) <> None.
Proof.
  induction evs as [|e evs IH]; intros s N.
  - exact N.
  - rewrite run_cons. apply IH, step_keeps_previous_price, N.
Qed.

(** C10. A freshly constructed widget has no previous price.  In every
    state [s] the program reaches from its start, [previous_price] is the
    price given to the latest call of [_update_price_display], and [None]
    exactly when no call was made yet; a call sets it to the price it is
    given; and once it is set, no further events make it [None] again. *)
Theorem previous_price_is_last_applied (cfg : WidgetConfig) (x y : Z)
    (evs more : list event) :
  let s := run' (started cfg x y) evs in
  previous_price (wdg (started cfg x y)) = None
  /\ previous_price (wdg s) = last_applied_price (wdg s)
  /\ (previous_price (wdg s) = None <-> applied (wdg s) = [])
  /\ (forall ctx w price change,
        previous_price (update_price_display ctx w price change) = Some price
        /\ last_applied_price (update_price_display ctx w price change)
           = Some price)
  /\ (previous_price (wdg s) <> None ->
      previous_price (wdg (run' s more)) <> None).
Proof.
  intros s.
  assert (I : previous_price (wdg s) = last_applied_price (wdg s))
    by (apply run_previous_price; reflexivity).
  refine (conj eq_refl (conj I (conj _ (conj _ _)))).
  - rewrite I. unfold last_applied_price.
    destruct (applied (wdg s)) as [|[[c p] h] t]; split;
      intros; try reflexivity; discriminate.
  - intros ctx w price change. split; reflexivity.
  - apply run_keeps_previous_price.
Qed.

(** ** Shutdown *)

(** A request is issued only by the loop test, and only when it reads
    [running] as true. *)
Lemma fetch_only_after_test (s : world) (o : Http.outcome) :
  fetches (worker_step' s o) <> fetches s ->
  worker s = AtLoopTest /\ running (wdg s) = true.
Proof.
  unfold worker_step. destruct (worker s) eqn:W.
  - destruct (running (wdg s)); [auto | intros N; elim N; reflexivity].
  - intros N; elim N.
    destruct (data <- fetch_price_data o ;; process' WorkerThread (wdg s) data)
      as [w' | e]; [destruct (sleep_check _) |]; reflexivity.
  - intros N; elim N; reflexivity.
  - intros N; elim N; reflexivity.
  - intros N; elim N; reflexivity.
Qed.

Lemma step_stopped_fetches (s : world) (e : event) :
  running (wdg s) = false -> fetches (step' s e) = fetches s.
Proof.
  intros H. destruct e as [ev | o]; [reflexivity |].
  cbn [step].
  destruct (Nat.eq_dec (fetches (worker_step' s o)) (fetches s)) as [E | N];
    [exact E |].
  destruct (fetch_only_after_test s o N) as [_ R]. congruence.
Qed.

Lemma exited_run (evs : list event) :
  forall s,
    worker s = LoopExited ->
    worker (run' s evs) = LoopExited /\ slept (run' s evs) = slept s.
Proof.
  induction evs as [|e evs IH]; intros s W.
  - auto.
  - rewrite run_cons. destruct e as [ev | o].
    + apply (IH (step' s (Ui ev)) W).
    + assert (E : step' s (Work o) = s)
        by (cbn [step]; unfold worker_step; rewrite W; reflexivity).
      rewrite E. apply (IH s W).
Qed.

Lemma at_test_stopped_run (evs : list event) :
  forall s,
    running (wdg s) = false ->
    worker s = AtLoopTest ->
    worker (run' s evs)
    = (if Nat.eqb (count_work evs) 0 then AtLoopTest else LoopExited)
    /\ slept (run' s evs) = slept s.
Proof.
  induction evs as [|e evs IH]; intros s R W.
  - auto.
  - rewrite run_cons. destruct e as [ev | o].
    + assert (R' : running (wdg (step' s (Ui ev))) = false)
        by (rewrite step_running, R; reflexivity).
      apply (IH (step' s (Ui ev)) R' W).
    + assert (E : step' s (Work o) = with_worker s LoopExited)
        by (cbn [step]; unfold worker_step; rewrite W, R; reflexivity).
      rewrite E.
      apply (exited_run evs (with_worker s LoopExited) eq_refl).
Qed.

Lemma in_sleep_stopped_run (evs : list event) :
  forall s,
    running (wdg s) = false ->
    worker s = InSleep ->
    worker (run' s evs) = after_close (count_work evs)
    /\ slept (run' s evs)
       = slept s + (if Nat.eqb (count_work evs) 0 then 0
                    else UPDATE_INTERVAL (config (wdg s))).
Proof.
  induction evs as [|e evs IH]; intros s R W.
  - cbn. split; [exact W | lia].
  - rewrite run_cons. destruct e as [ev | o].
    + assert (R' : running (wdg (step' s (Ui ev))) = false)
        by (rewrite step_running, R; reflexivity).
      destruct (IH (step' s (Ui ev)) R' W) as [H1 H2].
      rewrite (step_config s (Ui ev)) in H2. auto.
    + set (s1 := {| wdg := wdg s; worker := AtLoopTest; fetches := fetches s;
                    slept := slept s + UPDATE_INTERVAL (config (wdg s)) |}).
      assert (E : step' s (Work o) = s1)
        by (cbn [step]; unfold worker_step; rewrite W; reflexivity).
      rewrite E.
      destruct (at_test_stopped_run evs s1 R eq_refl) as [H1 H2].
      rewrite H1, H2.
      change (count_work (Work o :: evs)) with (S (count_work evs)).
      destruct (count_work evs); cbn; auto.
Qed.

Lemma stopped_run_fetches (evs : list event) :
  forall s, running (wdg s) = false -> fetches (run' s evs) = fetches s.
Proof.
  induction evs as [|e evs IH]; intros s R.
  - reflexivity.
  - rewrite run_cons, IH by (rewrite step_running, R; reflexivity).
    apply step_stopped_fetches, R.
Qed.

(** C6. If the close is requested while the worker is inside
    [time.sleep] (of a non-negative interval), then whatever the two threads
    do next, in any order, no further request is issued; the worker finishes
    that sleep, tests [running] and leaves the loop, having slept no more
    than one interval after the request.  In any state, a request is issued
    only by a loop test that has just read [running] as true. *)
Theorem close_during_sleep_stops_fetching (s : world) (evs : list event) :
  worker s = InSleep ->
  0 <= UPDATE_INTERVAL (config (wdg s)) ->
  let s' := run' (step' s (Ui Button3)) evs in
  fetches s' = fetches s
  /\ worker s' = after_close (count_work evs)
  /\ slept s <= slept s' <= slept s + UPDATE_INTERVAL (config (wdg s))
  /\ (forall s0 o,
        fetches (worker_step' s0 o) <> fetches s0 ->
        worker s0 = AtLoopTest /\ running (wdg s0) = true).
Proof.
  intros W I s'.
  assert (R : running (wdg (step' s (Ui Button3))) = false) by reflexivity.
  destruct (in_sleep_stopped_run evs (step' s (Ui Button3)) R W) as [H1 H2].
  refine (conj _ (conj H1 (conj _ fetch_only_after_test))).
  - apply (stopped_run_fetches evs _ R).
  - subst s'. rewrite H2. cbn [step with_widget wdg slept quit config handle].
    destruct (Nat.eqb (count_work evs) 0); lia.
Qed.

(** ** Responses that lack a field *)

Lemma died_run (evs : list event) :
  forall s e,
    worker s = Died e ->
    worker (run' s evs) = Died e /\ fetches (run' s evs) = fetches s.
Proof.
  induction evs as [|a evs IH]; intros s e W.
  - auto.
  - rewrite run_cons. destruct a as [ev | o].
    + apply (IH (step' s (Ui ev)) e W).
    + assert (E : step' s (Work o) = s)
        by (cbn [step]; unfold worker_step; rewrite W; reflexivity).
      rewrite E. apply (IH s e W).
Qed.

(** A cycle that raises leaves the widget as it was, and ends the worker. *)
Lemma raising_cycle_keeps_widget (s : world) (o : Http.outcome) (e : exn) :
  worker s = InFetch ->
  (data <- fetch_price_data o ;; process' WorkerThread (wdg s) data)
  = Raise e ->
  wdg (worker_step' s o) = wdg s /\ worker (worker_step' s o) = Died e.
Proof.
  intros W P. unfold worker_step. rewrite W, P. split; reflexivity.
Qed.



(** C1, on the code: a 200 response whose body is [{"data": {}}] passes the
    test [data and "data" in data]; [data["data"]["attributes"]] then raises
    [KeyError], which nothing catches.  The widget is as it was before the
    cycle, but the worker is dead: whatever happens next, it stays so and
    the one request it made remains the only one. *)
Theorem missing_attributes_kill_worker (cfg : WidgetConfig) (x y : Z) :
  let o := Http.Responded 200 (Some (VDict [("data", VDict [])])) in
  let s0 := started cfg x y in
  let s := run' s0 [Work o; Work o] in
  worker s = Died (KeyError "attributes")
  /\ wdg s = wdg s0
  /\ forall evs,
       worker (run' s evs) = Died (KeyError "attributes")
       /\ fetches (run' s evs) = 1%nat.
Proof.
  intros o s0 s.
  assert (W : worker s = Died (KeyError "attributes")) by reflexivity.
  refine (conj W (conj eq_refl _)).
  intros evs. apply (died_run evs s _ W).
Qed.

End Running.

(* ------------------------------------------------------------------ *)
(** * The program on concrete exchanges *)

Lemma first_cycle_display :
  worker after_first_cycle = InSleep
  /\ price_label (wdg after_first_cycle)
     = {| text := "$0.012300"; fg := UP_COLOR |}
  /\ percent_label (wdg after_first_cycle)
     = {| text := "↑1.50%"; fg := UP_COLOR |}
  /\ applied (wdg after_first_cycle)
     = [(WorkerThread, 0.0123%float, 1.5%float)].
Proof. vm_compute. repeat split. Qed.

(** A price that is not a numeral ends the worker with [ValueError]. *)
Lemma non_numeric_price_kills_worker :
  let s0 := started default_config 1836 20 in
  let o := Http.Responded 200 (Some (body_of "n/a" "1.5")) in
  let s := run Numeral.float_of_str s0 [Work o; Work o] in
  worker s = Died ValueError /\ wdg s = wdg s0.
Proof. vm_compute. split; reflexivity. Qed.

Lemma quit_idempotent_running_one_way_witness :
  let s := step Numeral.float_of_str after_first_cycle (Ui Button3) in
  running (wdg s) = false
  /\ running (wdg (run Numeral.float_of_str s
                     [Ui (Button1 900 30); Work good_response;
                      Work good_response; Ui Button3]))
     = false.
Proof.
  split; [reflexivity |].
  apply (proj2 (proj2 (proj2 (proj2 (proj2 (proj2
           (quit_idempotent_running_one_way Numeral.float_of_str))))))).
  reflexivity.
Defined.

Lemma previous_price_is_last_applied_witness :
  let evs := [Work good_response; Work good_response] in
  let more := [Ui Button3; Work good_response; Work good_response] in
  let s := run Numeral.float_of_str (started default_config 1836 20) evs in
  previous_price (wdg s) <> None
  /\ previous_price (wdg (run Numeral.float_of_str s more)) <> None.
Proof.
  split; [vm_compute; discriminate |].
  apply (proj2 (proj2 (proj2 (proj2
           (previous_price_is_last_applied Numeral.float_of_str
              default_config 1836 20
              [Work good_response; Work good_response]
              [Ui Button3; Work good_response; Work good_response]))))).
  vm_compute; discriminate.
Defined.

Lemma close_during_sleep_stops_fetching_witness :
  let s := after_first_cycle in
  let evs := [Work good_response; Ui (Button1 900 30); Work good_response;
              Work good_response] in
  let s' := run Numeral.float_of_str
              (step Numeral.float_of_str s (Ui Button3)) evs in
  worker s = InSleep
  /\ 0 <= UPDATE_INTERVAL (config (wdg s))
  /\ fetches s' = fetches s
  /\ worker s' = after_close (count_work evs)
  /\ slept s <= slept s' <= slept s + UPDATE_INTERVAL (config (wdg s)).
Proof.
  split; [reflexivity |].
  split; [vm_compute; discriminate |].
  pose proof (close_during_sleep_stops_fetching Numeral.float_of_str
                after_first_cycle
                [Work good_response; Ui (Button1 900 30);
                 Work good_response; Work good_response]
                eq_refl) as H.
  assert (I : 0 <= UPDATE_INTERVAL (config (wdg after_first_cycle)))
    by (vm_compute; discriminate).
  destruct (H I) as [H1 [H2 [H3 _]]].
  exact (conj H1 (conj H2 H3)).
Defined.


(* ------------------------------------------------------------------ *)
(** * Further properties *)

(** ** The event handlers *)

Lemma handle_keeps_display (w : widget) (ev : ui_event) :
  is_button3 ev = false ->
  price_label (handle w ev) = price_label w
  /\ percent_label (handle w ev) = percent_label w
  /\ previous_price (handle w ev) = previous_price w
  /\ running (handle w ev) = running w
  /\ tk_quit (handle w ev) = tk_quit w.
Proof.
  intros H. destruct ev; try discriminate H; cbn [handle];
    unfold start_drag, on_drag, stop_drag;
    try destruct (drag_data w) as [[dx dy] |]; cbn; auto.
Qed.

(** X1. Whatever presses, motions and releases the window receives, in
    whatever order, as long as none is the right click: both labels, the
    previous price, [running] and the quit flag are what they were. *)
Theorem drag_events_never_touch_display (evs : list ui_event) :
  forall w,
    existsb is_button3 evs = false ->
    let w' := handle_all w evs in
    price_label w' = price_label w
    /\ percent_label w' = percent_label w
    /\ previous_price w' = previous_price w
    /\ running w' = running w
    /\ tk_quit w' = tk_quit w.
Proof.
  induction evs as [|ev evs IH]; intros w H; cbn zeta.
  - cbn. auto.
  - cbn [existsb] in H. apply orb_false_iff in H. destruct H as [H1 H2].
    change (handle_all w (ev :: evs)) with (handle_all (handle w ev) evs).
    destruct (IH (handle w ev) H2) as [A [B [C [D E]]]].
    destruct (handle_keeps_display w ev H1) as [A' [B' [C' [D' E']]]].
    rewrite A, B, C, D, E. auto.
Qed.

Lemma drag_events_never_touch_display_witness :
  let w := update_price_display WorkerThread
             (new_widget default_config loading_label blank_label 1836 20)
             1.3%float 2.1%float in
  let evs := [B1Motion 5 5; Button1 900 30; Button1 901 31; B1Motion 950 80;
              ButtonRelease1; ButtonRelease1] in
  existsb is_button3 evs = false
  /\ price_label (handle_all w evs) = price_label w
  /\ previous_price (handle_all w evs) = previous_price w.
Proof.
  split; [reflexivity |].
  destruct (drag_events_never_touch_display
              [B1Motion 5 5; Button1 900 30; Button1 901 31; B1Motion 950 80;
               ButtonRelease1; ButtonRelease1]
              (update_price_display WorkerThread
                 (new_widget default_config loading_label blank_label 1836 20)
                 1.3%float 2.1%float) eq_refl) as [A [_ [C _]]].
  exact (conj A C).
Defined.

(** X2. A release with no session open changes nothing, a second release
    after a release changes nothing more, and a release never moves the
    window: it is the motion events that move it. *)
Theorem release_is_harmless (w : widget) :
  (drag_data w = None -> stop_drag w = w)
  /\ stop_drag (stop_drag w) = stop_drag w
  /\ win_x (stop_drag w) = win_x w
  /\ win_y (stop_drag w) = win_y w
  /\ (forall x y, on_drag (stop_drag w) x y = stop_drag w).
Proof.
  unfold stop_drag, on_drag.
  destruct (drag_data w) as [[dx dy] |] eqn:D; cbn; rewrite ?D;
    repeat split; auto; discriminate.
Qed.

Lemma release_is_harmless_witness :
  let w := new_widget default_config loading_label blank_label 1836 20 in
  drag_data w = None /\ stop_drag w = w.
Proof.
  split; [reflexivity |].
  apply (proj1 (release_is_harmless
                  (new_widget default_config loading_label blank_label
                     1836 20))).
  reflexivity.
Defined.

Lemma mainloop_quit_flag (evs : list ui_event) :
  forall w, tk_quit w = true -> mainloop w evs = w.
Proof. destruct evs; intros w H; cbn [mainloop]; [| rewrite H]; reflexivity. Qed.

(** X3. The event loop handles every event up to the first right click and
    none after it: with the quit flag down at the start, the widget that
    [mainloop] leaves is the one [quit] leaves after the events before that
    click. *)
Theorem mainloop_stops_at_first_close (pre : list ui_event) :
  forall w post,
    tk_quit w = false ->
    existsb is_button3 pre = false ->
    mainloop w (pre ++ Button3 :: post) = quit (handle_all w pre).
Proof.
  induction pre as [|ev pre IH]; intros w post Q H.
  - cbn [app mainloop handle_all fold_left]. rewrite Q. cbn [handle].
    apply mainloop_quit_flag. reflexivity.
  - cbn [existsb] in H. apply orb_false_iff in H. destruct H as [H1 H2].
    cbn [app mainloop]. rewrite Q.
    change (handle_all w (ev :: pre)) with (handle_all (handle w ev) pre).
    apply IH; [| exact H2].
    destruct (handle_keeps_display w ev H1) as [_ [_ [_ [_ ->]]]]. exact Q.
Qed.

Lemma mainloop_stops_at_first_close_witness :
  let w := new_widget default_config loading_label blank_label 1836 20 in
  tk_quit w = false
  /\ existsb is_button3 [Button1 900 30; B1Motion 950 80] = false
  /\ mainloop w ([Button1 900 30; B1Motion 950 80]
                   ++ Button3 :: [B1Motion 10 10; ButtonRelease1; Button3])
     = quit (handle_all w [Button1 900 30; B1Motion 950 80]).
Proof.
  refine (conj eq_refl (conj eq_refl _)).
  apply (mainloop_stops_at_first_close [Button1 900 30; B1Motion 950 80]);
    reflexivity.
Defined.

(** ** What a fetch returns *)




(** ** Construction, for every state of the logo file *)

(** X5. The constructor completes exactly when the logo loads.  When it
    does not load, for whatever reason, one line is printed, the two text
    labels exist, and [AttributeError] leaves [__init__] before any binding
    is made.  When it loads, nothing is printed, each of the three widgets
    has the four bindings, the window's right edge is 20 pixels from the
    screen's and its top 20 pixels down, and the worker is at its first loop
    test with [running] true and no previous price. *)
Theorem construction_completes_iff_logo_loads (cfg : WidgetConfig)
    (env : environment) :
  ((exists s, snd (construct cfg env) = Ok s) <-> logo env = LogoReadable)
  /\ (logo env <> LogoReadable ->
      snd (construct cfg env) = Raise (AttributeError "image_label")
      /\ bindings (fst (construct cfg env)) = []
      /\ List.length (stdout (fst (construct cfg env))) = 1%nat
      /\ o_price_label (fst (construct cfg env)) = Some loading_label
      /\ o_percent_label (fst (construct cfg env)) = Some blank_label)
  /\ (logo env = LogoReadable ->
      exists s,
        snd (construct cfg env) = Ok s
        /\ stdout (fst (construct cfg env)) = []
        /\ List.length (bindings (fst (construct cfg env))) = 12%nat
        /\ (forall wd sequence,
              In sequence ["<Button-1>"; "<B1-Motion>"; "<ButtonRelease-1>";
                           "<Button-3>"] ->
              In (wd, sequence) (bindings (fst (construct cfg env))))
        /\ win_x (wdg s) + window_width env + 20 = screen_width env
        /\ win_y (wdg s) = 20
        /\ worker s = AtLoopTest
        /\ running (wdg s) = true
        /\ previous_price (wdg s) = None
        /\ config (wdg s) = cfg).
Proof.
  unfold construct, load_logo.
  destruct (logo env) as [| message |] eqn:L; cbn.
  - split; [split; [intros [s H]; discriminate | discriminate] |].
    split; [auto 10 | discriminate].
  - split; [split; [intros [s H]; discriminate | discriminate] |].
    split; [auto 10 | discriminate].
  - split; [split; [reflexivity | eexists; reflexivity] |].
    split; [intros N; elim N; reflexivity |].
    intros _. eexists. split; [reflexivity |].
    split; [reflexivity |]. split; [reflexivity |].
    split.
    + intros wd sequence H.
      destruct wd; cbn in H; intuition (subst; cbn; auto 20).
    + cbn. repeat split. lia.
Qed.

Lemma construction_completes_iff_logo_loads_witness :
  let env := {| image_path := "/opt/widget/logo.png";
                logo := LogoUnreadable "cannot identify image file";
                screen_width := 1920; window_width := 64 |} in
  logo env <> LogoReadable
  /\ snd (construct default_config env) = Raise (AttributeError "image_label")
  /\ bindings (fst (construct default_config env)) = [].
Proof.
  split; [discriminate |].
  destruct (proj1 (proj2 (construction_completes_iff_logo_loads
                            default_config
                            {| image_path := "/opt/widget/logo.png";
                               logo := LogoUnreadable
                                         "cannot identify image file";
                               screen_width := 1920; window_width := 64 |})))
    as [A [B _]]; [discriminate |].
  exact (conj A B).
Defined.

(** ** Colors at the edges of the comparison *)

Lemma SFleb_refl (x : spec_float) : x <> S754_nan -> SFleb x x = true.
Proof.
  unfold SFleb, SFcompare.
  destruct x as [s | s | | s m e]; intros N; try reflexivity.
  - destruct s; reflexivity.
  - elim N. reflexivity.
  - destruct s; rewrite Z.compare_refl, Pos.compare_cont_refl; reflexivity.
Qed.

Lemma SFleb_nan_l (y : spec_float) : SFleb S754_nan y = false.
Proof. reflexivity. Qed.

Lemma SFleb_nan_r (x : spec_float) : SFleb x S754_nan = false.
Proof. destruct x; reflexivity. Qed.

Lemma ge_nan (a b : float) :
  (is_nan a || is_nan b)%bool = true -> PyFloat.ge a b = false.
Proof.
  unfold PyFloat.ge, is_nan. rewrite leb_spec. intros H.
  destruct (Prim2SF a); destruct (Prim2SF b); try discriminate H;
    reflexivity.
Qed.

(** X6. With a previous price that is not NaN, a sample at that same price
    is shown in the up color.  A NaN price that has a predecessor is shown
    in the down color, and so is any price that follows a NaN price.  A NaN
    change is shown in the down color as ["↓nan%"]. *)
Theorem colors_at_equal_and_nan (ctx : context) (w : widget)
    (q price change : float) :
  previous_price w = Some q ->
  let w' := update_price_display ctx w price change in
  (is_nan q = false -> fg (price_label (update_price_display ctx w q change))
                       = UP_COLOR)
  /\ ((is_nan price || is_nan q)%bool = true ->
      fg (price_label w') = DOWN_COLOR)
  /\ (is_nan change = true ->
      percent_label w' = {| text := "↓nan%"; fg := DOWN_COLOR |}).
Proof.
  intros P w'. subst w'.
  cbn [update_price_display price_label percent_label fg].
  rewrite P. cbn [price_color].
  refine (conj _ (conj _ _)).
  - intros N. unfold PyFloat.ge. rewrite leb_spec, SFleb_refl; [reflexivity |].
    unfold is_nan in N. destruct (Prim2SF q); congruence.
  - intros N. rewrite (ge_nan price q N). reflexivity.
  - intros N.
    assert (G : PyFloat.ge_zero change = false)
      by (apply ge_nan; rewrite N; reflexivity).
    assert (F : PyFloat.format_f 2 (PrimFloat.abs change) = "nan").
    { unfold PyFloat.format_f. rewrite abs_spec.
      unfold is_nan in N. destruct (Prim2SF change); try discriminate N.
      reflexivity. }
    unfold percent_text, percent_color. rewrite G, F. reflexivity.
Qed.

Lemma colors_at_equal_and_nan_witness :
  let w := update_price_display WorkerThread
             (new_widget default_config loading_label blank_label 1836 20)
             1.3%float 2.1%float in
  previous_price w = Some 1.3%float
  /\ is_nan 1.3%float = false
  /\ fg (price_label (update_price_display WorkerThread w 1.3%float
                        PrimFloat.nan)) = UP_COLOR
  /\ is_nan PrimFloat.nan = true
  /\ percent_label (update_price_display WorkerThread w 0.5%float
                      PrimFloat.nan)
     = {| text := "↓nan%"; fg := DOWN_COLOR |}.
Proof.
  pose proof (colors_at_equal_and_nan WorkerThread
                (update_price_display WorkerThread
                   (new_widget default_config loading_label blank_label
                      1836 20) 1.3%float 2.1%float)
                1.3%float 0.5%float PrimFloat.nan eq_refl) as [A [_ C]].
  exact (conj eq_refl (conj eq_refl (conj (A eq_refl)
           (conj eq_refl (C eq_refl))))).
Defined.

(** ** The numeral shown is the price, rounded *)














(** ** The two threads together *)

Section Together.

Variable float_of_str : string -> option float.

Local Notation process' := (process float_of_str).
Local Notation worker_step' := (worker_step float_of_str).
Local Notation step' := (step float_of_str).
Local Notation run' := (run float_of_str).




(** ** Iterations that have nothing to show *)



(** ** What a body must look like *)

(** X10. The loop obtains a sample from a decoded body exactly when the body
    is a dict whose ["data"] is a dict whose ["attributes"] is a dict in
    which ["base_token_price_usd"] converts with [float()] and
    ["price_change_percentage"] is a dict whose ["h24"] converts with
    [float()]; the sample is then the two converted numbers. *)
Theorem read_sample_ok_iff (data : pyval) (price change : float) :
  read_sample float_of_str data = Ok (price, change)
  <-> exists d a t pv pc hv,
        data = VDict d
        /\ dict_get d "data" = Some (VDict a)
        /\ dict_get a "attributes" = Some (VDict t)
        /\ dict_get t "base_token_price_usd" = Some pv
        /\ py_float float_of_str pv = Ok price
        /\ dict_get t "price_change_percentage" = Some (VDict pc)
        /\ dict_get pc "h24" = Some hv
        /\ py_float float_of_str hv = Ok change.
Proof.
  split.
  - unfold read_sample, subscript.
    destruct data as [| | | | | | d]; cbn [bind]; try discriminate.
    destruct (dict_get d "data") as [[| | | | | | a] |] eqn:E1; cbn [bind];
      try discriminate.
    destruct (dict_get a "attributes") as [[| | | | | | t] |] eqn:E2;
      cbn [bind]; try discriminate.
    destruct (dict_get t "base_token_price_usd") as [pv |] eqn:E3;
      cbn [bind]; try discriminate.
    destruct (py_float float_of_str pv) as [p |] eqn:E4; cbn [bind];
      try discriminate.
    destruct (dict_get t "price_change_percentage") as [[| | | | | | pc] |]
      eqn:E5; cbn [bind]; try discriminate.
    destruct (dict_get pc "h24") as [hv |] eqn:E6; cbn [bind];
      try discriminate.
    destruct (py_float float_of_str hv) as [c |] eqn:E7; cbn [bind];
      try discriminate.
    intros [= <- <-]. exists d, a, t, pv, pc, hv. auto 10.
  - intros [d [a [t [pv [pc [hv [-> [E1 [E2 [E3 [E4 [E5 [E6 E7]]]]]]]]]]]]].
    unfold read_sample, subscript. rewrite E1. cbn [bind]. rewrite E2.
    cbn [bind]. rewrite E3. cbn [bind]. rewrite E4. cbn [bind]. rewrite E5.
    cbn [bind]. rewrite E6. cbn [bind]. rewrite E7. reflexivity.
Qed.

(** X11. The test [data and "data" in data] raises exactly on an object
    that is true and a number or a bool, and then it is [TypeError].  A body
    that is not a dict never reaches the display: the iteration either skips
    it or raises [TypeError]. *)
Theorem guard_on_non_dict_bodies :
  (forall data e,
     has_data data = Raise e
     <-> e = TypeError /\ is_number data = true /\ truthy data = true)
  /\ (forall ctx w data,
        is_dict data = false ->
        process' ctx w data = Ok w \/ process' ctx w data = Raise TypeError).
Proof.
  split.
  - intros data e. unfold has_data.
    destruct data as [| b | z | f | str | l | d]; cbn [truthy is_number contains].
    + split; [discriminate | intros [_ [N _]]; discriminate].
    + destruct b; split; try discriminate; try (intros [= <-]; auto);
        intros [-> [_ T]]; try reflexivity; discriminate.
    + destruct (negb (z =? 0)%Z); split; try discriminate;
        try (intros [= <-]; auto);
        intros [-> [_ T]]; try reflexivity; discriminate.
    + destruct (negb (PrimFloat.eqb f PrimFloat.zero)); split;
        try discriminate; try (intros [= <-]; auto);
        intros [-> [_ T]]; try reflexivity; discriminate.
    + destruct (negb (String.eqb str "")); split; try discriminate;
        intros [_ [N _]]; discriminate.
    + destruct l; split; try discriminate; intros [_ [N _]]; discriminate.
    + destruct d; split; try discriminate; intros [_ [N _]]; discriminate.
  - intros ctx w data D. unfold process, has_data.
    destruct data as [| b | z | f | str | l | d];
      cbn [truthy contains bind]; try discriminate D.
    + left; reflexivity.
    + destruct b; cbn [bind]; auto.
    + destruct (negb (z =? 0)%Z); cbn [bind]; auto.
    + destruct (negb (PrimFloat.eqb f PrimFloat.zero)); cbn [bind]; auto.
    + destruct (negb (String.eqb str "")); cbn [bind]; auto.
      destruct (is_substring "data" str); cbn [bind]; auto.
    + destruct l as [| v l]; cbn [bind]; auto.
      destruct (existsb (is_str "data") (v :: l)); cbn [bind]; auto.
Qed.

(** ** Pace of the requests *)

Lemma step_paced (interval : Z) (s : world) (e : event) :
  UPDATE_INTERVAL (config (wdg s)) = interval ->
  paced interval s ->
  paced interval (step' s e).
Proof.
  intros C P. destruct e as [ev | o]; [exact P |].
  cbn [step]. unfold paced, worker_step in *.
  destruct (worker s) eqn:W.
  - destruct (running (wdg s)); cbn [worker slept fetches with_worker];
      [rewrite Nat2Z.inj_succ; lia | exact P].
  - destruct (data <- fetch_price_data o ;; process' WorkerThread (wdg s) data)
      as [w' | x]; [destruct (sleep_check _) |]; exact P.
  - cbn [worker slept fetches]. lia.
  - rewrite W. exact P.
  - rewrite W. exact P.
Qed.

(** X12. The program never issues two requests without a whole sleep in
    between: in every state it reaches from its start, the time slept is
    one interval per request issued when the worker is at the loop test or
    has left the loop by it, and one interval per request but the latest
    when the worker is fetching, asleep or dead. *)
Theorem requests_are_paced (cfg : WidgetConfig) (x y : Z)
    (evs : list event) :
  paced (UPDATE_INTERVAL cfg) (run' (started cfg x y) evs).
Proof.
  assert (G : forall evs s,
             UPDATE_INTERVAL (config (wdg s)) = UPDATE_INTERVAL cfg ->
             paced (UPDATE_INTERVAL cfg) s ->
             paced (UPDATE_INTERVAL cfg) (run' s evs)).
  { clear evs. induction evs as [|e evs IH]; intros s C P.
    - exact P.
    - rewrite run_cons. apply IH.
      + rewrite step_config. exact C.
      + apply step_paced; assumption. }
  apply G; [reflexivity |]. unfold paced. cbn. lia.
Qed.

(** ** After the worker has stopped, and after a close *)

(** X13. Once the worker has left the loop, by the loop test or by an
    exception, the display is stale for good: whatever events and worker
    steps follow, both labels and the previous price keep their values, no
    call of [_update_price_display] is added, and no request is issued. *)
Theorem display_is_stale_after_worker_stops (evs : list event) :
  forall s,
    stopped (worker s) = true ->
    let s' := run' s evs in
    price_label (wdg s') = price_label (wdg s)
    /\ percent_label (wdg s') = percent_label (wdg s)
    /\ previous_price (wdg s') = previous_price (wdg s)
    /\ applied (wdg s') = applied (wdg s)
    /\ fetches s' = fetches s
    /\ worker s' = worker s.
Proof.
  induction evs as [|e evs IH]; intros s H; cbn zeta.
  - auto 10.
  - rewrite run_cons. destruct e as [ev | o].
    + destruct (IH (step' s (Ui ev)) H) as [A [B [C [D [E F]]]]].
      rewrite A, B, C, D, E, F. cbn [step with_widget wdg fetches worker].
      destruct (handle_frame (wdg s) ev) as [_ [P [Q [R [S _]]]]]. auto 10.
    + assert (E : step' s (Work o) = s).
      { cbn [step]. unfold worker_step.
        destruct (worker s); try discriminate H; reflexivity. }
      rewrite E. apply (IH s H).
Qed.

Lemma stopped_run_applied (evs : list event) :
  forall s,
    running (wdg s) = false ->
    worker s <> InFetch ->
    applied (wdg (run' s evs)) = applied (wdg s).
Proof.
  induction evs as [|e evs IH]; intros s R W.
  - reflexivity.
  - rewrite run_cons, IH.
    + destruct e as [ev | o]; cbn [step with_widget wdg].
      * apply handle_frame.
      * destruct (worker_step_widget float_of_str s o) as [-> | [F _]];
          [reflexivity | contradiction].
    + rewrite step_running, R. reflexivity.
    + destruct e as [ev | o]; [exact W |].
      cbn [step]. unfold worker_step.
      destruct (worker s) eqn:K; try (rewrite ?K; discriminate).
      * rewrite R. discriminate.
      * elim W. reflexivity.
Qed.

Lemma no_update_after_close_outside_iteration (evs : list event) :
  forall s,
    running (wdg s) = false ->
    exists extra,
      applied (wdg (run' s evs)) = (extra ++ applied (wdg s))%list
      /\ (List.length extra <= 1)%nat
      /\ (worker s <> InFetch -> extra = [])
      /\ fetches (run' s evs) = fetches s.
Proof.
  induction evs as [|e evs IH]; intros s R.
  - exists []. cbn. auto.
  - assert (F : fetches (run' s (e :: evs)) = fetches s)
      by (apply stopped_run_fetches, R).
    destruct (worker s) eqn:W;
      try (exists []; rewrite stopped_run_applied by (congruence || exact R);
           cbn; auto).
    rewrite run_cons in F |- *. destruct e as [ev | o].
    + assert (R' : running (wdg (step' s (Ui ev))) = false)
        by (rewrite step_running, R; reflexivity).
      destruct (IH (step' s (Ui ev)) R') as [extra [A [B _]]].
      exists extra.
      refine (conj _ (conj B (conj _ F))); [| intros N; elim N; reflexivity].
      rewrite A. cbn [step with_widget wdg].
      destruct (handle_frame (wdg s) ev) as [_ [_ [-> _]]]. reflexivity.
    + assert (R' : running (wdg (step' s (Work o))) = false)
        by (rewrite step_running, R; reflexivity).
      assert (W' : worker (step' s (Work o)) <> InFetch).
      { cbn [step]. unfold worker_step. rewrite W.
        destruct (data <- fetch_price_data o ;;
                  process' WorkerThread (wdg s) data);
          [destruct (sleep_check _) |]; discriminate. }
      rewrite (stopped_run_applied evs _ R' W').
      destruct (worker_step_widget float_of_str s o)
        as [E | [_ [p [c E]]]]; cbn [step]; rewrite E.
      * exists []. refine (conj eq_refl (conj _ (conj _ F))); cbn; auto.
      * exists [(WorkerThread, p, c)].
        refine (conj eq_refl (conj _ (conj _ F))); cbn; auto.
        intros N. elim N. reflexivity.
Qed.

(** X14. After a close has been requested, whatever the two threads do next
    and in whatever order, no new iteration is begun: the loop test never
    passes again, and a worker that is at the loop test can only leave the
    loop.  An iteration that had passed its loop test before the close runs
    to its end, so the display is updated at most once more, and not at all
    unless such an iteration was in progress. *)
Theorem at_most_one_update_after_close (evs : list event) (s : world) :
  running (wdg s) = false ->
  (exists extra,
     applied (wdg (run' s evs)) = (extra ++ applied (wdg s))%list
     /\ (List.length extra <= 1)%nat
     /\ (worker s <> InFetch -> extra = []))
  /\ fetches (run' s evs) = fetches s
  /\ (worker s = AtLoopTest ->
      worker (run' s evs) = AtLoopTest \/ worker (run' s evs) = LoopExited).
Proof.
  intros R.
  destruct (no_update_after_close_outside_iteration evs s R)
    as [extra [A [B [C F]]]].
  refine (conj _ (conj F _)).
  - exists extra. auto.
  - intros W.
    destruct (at_test_stopped_run float_of_str evs s R W) as [H _].
    rewrite H. destruct (Nat.eqb (count_work evs) 0); auto.
Qed.

End Together.

(* ------------------------------------------------------------------ *)
(** * The further properties on concrete exchanges *)




Lemma read_sample_ok_iff_witness :
  read_sample Numeral.float_of_str (body_of "0.0123" "1.5")
  = Ok (0.0123%float, 1.5%float).
Proof.
  apply (proj2 (read_sample_ok_iff Numeral.float_of_str
                  (body_of "0.0123" "1.5") 0.0123%float 1.5%float)).
  eexists _, _, _, _, _, _.
  repeat split; reflexivity.
Defined.

Lemma guard_on_non_dict_bodies_witness :
  let w := new_widget default_config loading_label blank_label 1836 20 in
  let data := VList [VStr "data"] in
  is_dict data = false
  /\ (process Numeral.float_of_str WorkerThread w data = Ok w
      \/ process Numeral.float_of_str WorkerThread w data = Raise TypeError).
Proof.
  split; [reflexivity |].
  apply (proj2 (guard_on_non_dict_bodies Numeral.float_of_str)).
  reflexivity.
Defined.

(** The program after a response without ["attributes"]: the worker is
    dead. *)
Lemma display_is_stale_after_worker_stops_witness :
  let bad := Http.Responded 200 (Some (VDict [("data", VDict [])])) in
  let s := run Numeral.float_of_str after_first_cycle
             [Work bad; Work bad; Work bad] in
  let evs := [Work good_response; Ui (Button1 900 30); Work good_response;
              Work good_response] in
  stopped (worker s) = true
  /\ price_label (wdg (run Numeral.float_of_str s evs)) = price_label (wdg s)
  /\ fetches (run Numeral.float_of_str s evs) = fetches s.
Proof.
  split; [reflexivity |].
  destruct (display_is_stale_after_worker_stops Numeral.float_of_str
              [Work good_response; Ui (Button1 900 30); Work good_response;
               Work good_response]
              (run Numeral.float_of_str after_first_cycle
                 [Work (Http.Responded 200 (Some (VDict [("data", VDict [])])));
                  Work (Http.Responded 200 (Some (VDict [("data", VDict [])])));
                  Work (Http.Responded 200 (Some (VDict [("data", VDict [])])))])
              eq_refl) as [A [_ [_ [_ [E _]]]]].
  exact (conj A E).
Defined.

Lemma at_most_one_update_after_close_witness :
  let s := step Numeral.float_of_str
             (run Numeral.float_of_str (started default_config 1836 20)
                [Work good_response])
             (Ui Button3) in
  let evs := [Work good_response; Work good_response; Work good_response] in
  running (wdg s) = false
  /\ (exists extra,
        applied (wdg (run Numeral.float_of_str s evs))
        = (extra ++ applied (wdg s))%list
        /\ (List.length extra <= 1)%nat
        /\ (worker s <> InFetch -> extra = []))
  /\ fetches (run Numeral.float_of_str s evs) = fetches s.
Proof.
  split; [reflexivity |].
  destruct (at_most_one_update_after_close Numeral.float_of_str
              [Work good_response; Work good_response; Work good_response]
              (step Numeral.float_of_str
                 (run Numeral.float_of_str (started default_config 1836 20)
                    [Work good_response])
                 (Ui Button3))
              eq_refl) as [A [F _]].
  exact (conj A F).
Defined.

(** ** A series of iterations *)

Section Iterations.

Variable float_of_str : string -> option float.

Local Notation worker_step' := (worker_step float_of_str).
Local Notation run' := (run float_of_str).



End Iterations.

